(** * Pull-request server actions of better-hub: a shallow embedding

    Source: apps/web/src/app/(app)/repos/[owner]/[repo]/pulls/pr-actions.ts

    The file embeds the server actions (merge, close, review, comment, file
    edits, conflict resolution, thread resolution), the cache revalidation
    step that follows each of them, and the snapshot the contributor dossier
    hands to the scorer.  Remote calls are effects: every operation is a
    computation over a [World] that fixes how the hosting API, the cache layer
    and the authentication provider behave, and it produces an outcome
    (a returned value or a thrown exception) together with the list of
    effects it performed. *)

From Stdlib Require Import String Ascii List ZArith NArith Lia Bool DecimalString.
From stdpp Require Import gmap strings.
Import ListNotations.

Local Open Scope string_scope.
Local Open Scope Z_scope.

(** ** JavaScript strings and arrays, as far as the actions use them *)

Module Js.

(** The newline character the file contents are split on. *)
Definition newline : ascii := ascii_of_nat 10.

(** [c.toLowerCase()] on one character.  Logins of the hosting service are
    ASCII (letters, digits, hyphen), so only 'A'..'Z' move. *)
Definition lowerChar (c : ascii) : ascii :=
  let n := nat_of_ascii c in
  if ((65 <=? n)%nat && (n <=? 90)%nat)%bool then ascii_of_nat (n + 32) else c.

(** [s.toLowerCase()]. *)
Fixpoint toLowerCase (s : string) : string :=
  match s with
  | EmptyString => EmptyString
  | String c r => String (lowerChar c) (toLowerCase r)
  end.

(** [a === b] on strings. *)
Definition strictEq (a b : string) : bool := String.eqb a b.

(** [s.split("\n")]: never empty, the empty string gives one empty line. *)
Fixpoint split (s : string) : list string :=
  match s with
  | EmptyString => [EmptyString]
  | String c r =>
      if Ascii.eqb c newline then EmptyString :: split r
      else match split r with
           | [] => [String c EmptyString]
           | l :: ls => String c l :: ls
           end
  end.

(** [lines.join("\n")]. *)
Fixpoint join (l : list string) : string :=
  match l with
  | [] => EmptyString
  | [x] => x
  | x :: rest => x ++ String newline (join rest)
  end.

(** The relative-index rule of [Array.prototype.slice]: a negative index
    counts from the end, and both ends are clamped into [0, len]. *)
Definition relIndex (len k : Z) : Z :=
  if k <? 0 then Z.max (len + k) 0 else Z.min k len.

(** [l.slice(start, end)]. *)
Definition slice {A : Type} (l : list A) (start end_ : Z) : list A :=
  let len := Z.of_nat (length l) in
  let k := relIndex len start in
  let final := relIndex len end_ in
  firstn (Z.to_nat (final - k)) (skipn (Z.to_nat k) l).

(** [l.slice(start)]: the end defaults to the length. *)
Definition sliceFrom {A : Type} (l : list A) (start : Z) : list A :=
  slice l start (Z.of_nat (length l)).

(** Truthiness of a string value that may be [undefined]: [undefined] and the
    empty string are falsy. *)
Definition truthy (s : option string) : option string :=
  match s with
  | Some EmptyString => None
  | other => other
  end.

(** [a || b] where [a] is a string that may be [undefined]. *)
Definition orElse (a : option string) (b : string) : string :=
  match truthy a with
  | Some s => s
  | None => b
  end.

(** A line holds no newline character. *)
Definition noNewline (s : string) : Prop :=
  forall c, In c (list_ascii_of_string s) -> c <> newline.

(** A number inside a template literal. *)
Definition numberToString (n : Z) : string := NilZero.string_of_int (Z.to_int n).

End Js.

(** ** The spec's wording of case-insensitive equality

    Kept apart from [Js.toLowerCase]: two characters are the same letter when
    they are equal or differ only by the case of an ASCII letter. *)

Module CaseInsensitive.

Definition isUpper (c : ascii) : bool :=
  let n := nat_of_ascii c in ((65 <=? n)%nat && (n <=? 90)%nat)%bool.

Definition sameLetter (c d : ascii) : bool :=
  (Ascii.eqb c d
   || (isUpper c && (nat_of_ascii d =? nat_of_ascii c + 32)%nat)
   || (isUpper d && (nat_of_ascii c =? nat_of_ascii d + 32)%nat))%bool.

Fixpoint equalIgnoringCase (s t : string) : bool :=
  match s, t with
  | EmptyString, EmptyString => true
  | String c s', String d t' => (sameLetter c d && equalIgnoringCase s' t')%bool
  | _, _ => false
  end.

(** Every character, for statements checked on all of them. *)
Definition allChars : list ascii := map ascii_of_nat (seq 0 256).

End CaseInsensitive.

(** ** commitSuggestion: the new file content *)

Module Suggestion.

(** [suggestion.length > 0 ? suggestion.split("\n") : []] *)
Definition suggestionLines (suggestion : string) : list string :=
  if (0 <? String.length suggestion)%nat then Js.split suggestion else [].

(** [lines.slice(0, startLine - 1)] *)
Definition before (lines : list string) (startLine : Z) : list string :=
  Js.slice lines 0 (startLine - 1).

(** [lines.slice(endLine)] *)
Definition after (lines : list string) (endLine : Z) : list string :=
  Js.sliceFrom lines endLine.

(** [[...before, ...suggestionLines, ...after]] *)
Definition splicedLines (lines : list string) (startLine endLine : Z)
    (suggestion : string) : list string :=
  before lines startLine ++ suggestionLines suggestion ++ after lines endLine.

(** [newContent], from the decoded file content. *)
Definition newContent (content : string) (startLine endLine : Z)
    (suggestion : string) : string :=
  Js.join (splicedLines (Js.split content) startLine endLine suggestion).

End Suggestion.

(** ** Effects: the hosting API, the cache layer and the trace of calls *)

Module Effects.

Local Open Scope list_scope.

(** A thrown JavaScript value, as the [catch (e: unknown)] clauses see it. *)
Record Exn := { exn_name : string; exn_message : string }.

(** What awaiting a call gives: a value, or a rejection. *)
Inductive Outcome (A : Type) : Type :=
| Returned (a : A)
| Threw (e : Exn).
Arguments Returned {A} a.
Arguments Threw {A} e.

Definition typeError (what : string) : Exn :=
  {| exn_name := "TypeError"; exn_message := what |}.

(** *** Requests *)

Inductive MergeMethod := merge | squash | rebase.
Inductive ReviewEvent := APPROVE | REQUEST_CHANGES | COMMENT.
Inductive Side := LEFT | RIGHT.

(** The one field [octokit.pulls.update] is given besides the coordinates. *)
Inductive PullUpdate :=
| UpdateBase (base : string)
| UpdateTitle (title : string)
| UpdateState (state : string).

Record ReviewCommentParams := {
  rc_owner : string;
  rc_repo : string;
  rc_pull_number : Z;
  rc_body : string;
  rc_commit_id : string;
  rc_path : string;
  rc_line : Z;
  rc_side : Side;
  rc_start_line : option Z;
  rc_start_side : option Side
}.

Record TreeEntry := {
  te_path : string;
  te_mode : string;
  te_type : string;
  te_sha : string
}.

(** The [date] of a commit author is the instant read from the clock; its
    ISO-8601 rendering is not modelled. *)
Record CommitAuthor := {
  author_name : string;
  author_email : string;
  author_date : Z
}.

(** The three GraphQL documents the file posts. *)
Inductive GraphQLDocument :=
| ResolveReviewThreadMutation (threadId : string)
| UnresolveReviewThreadMutation (threadId : string)
| AuthorDossierQuery (slug : string) (login : string).

(** One constructor per remote endpoint the file calls.  File contents are
    carried as text: their base64 transport encoding is not modelled. *)
Inductive Request :=
| pulls_update (owner repo : string) (pull_number : Z) (change : PullUpdate)
| pulls_merge (owner repo : string) (pull_number : Z) (merge_method : MergeMethod)
    (commit_title commit_message : option string)
| pulls_createReview (owner repo : string) (pull_number : Z) (event : ReviewEvent)
    (body : option string)
| issues_createComment (owner repo : string) (issue_number : Z) (body : string)
| pulls_createReviewComment (params : ReviewCommentParams)
| repos_getContent (owner repo path ref : string)
| repos_createOrUpdateFileContents (owner repo path message content sha branch : string)
| git_getRef (owner repo ref : string)
| git_getCommit (owner repo commit_sha : string)
| git_createBlob (owner repo content encoding : string)
| git_createTree (owner repo base_tree : string) (tree : list TreeEntry)
| git_createCommit (owner repo message tree : string) (parents : list string)
    (author : option CommitAuthor)
| git_updateRef (owner repo ref sha : string)
| graphql (token : string) (document : GraphQLDocument).

(** *** Responses *)

(** [data] of [repos.getContent]: a directory listing or one entry. *)
Inductive ContentData :=
| ContentDirectory (entries : list string)
| ContentEntry (type content sha : string).

Record GqlError := { message : string }.

(** Nodes of the dossier query.  A field is optional exactly where the code
    reads it through [?.] or [??].  Counts ([totalCount], [issueCount],
    [stargazerCount]) are natural numbers, as the schema's item counts are. *)
Record OrgNode := {
  org_login : option string;
  org_avatarUrl : option string
}.

Record RepoNode := {
  repo_name : string;
  repo_nameWithOwner : string;
  repo_stargazerCount : option N;
  repo_primaryLanguage : option string
}.

Record UserNode := {
  u_login : option string;
  u_name : option string;
  u_avatarUrl : option string;
  u_bio : option string;
  u_company : option string;
  u_location : option string;
  u_websiteUrl : option string;
  u_twitterUsername : option string;
  u_repositories : option N;
  u_followers : option N;
  u_following : option N;
  u_createdAt : option string;
  u_typename : string;
  u_topRepositories : option (list RepoNode);
  u_organizations : option (list OrgNode)
}.

(** [issueCount] of each of the five searches. *)
Record GqlData := {
  d_user : option UserNode;
  d_openPrs : option N;
  d_mergedPrs : option N;
  d_closedPrs : option N;
  d_issues : option N;
  d_reviews : option N
}.

Record GqlJson := {
  json_errors : option (list GqlError);
  json_data : option GqlData
}.

Inductive Response :=
| RNone
| RContent (data : ContentData)
| RFileCommit (content_sha : option string)
| RRef (object_sha : string)
| RCommit (tree_sha : string)
| RSha (sha : string)
| RFetch (ok : bool) (json : Outcome GqlJson).

(** *** Collaborators that are not the hosting API *)

Record Branch := { branch_name : string }.

Record AuthUser := {
  user_name : option string;
  user_login : option string;
  user_email : option string
}.

(** The authenticated client; all it offers is the remote endpoints above. *)
Inductive Octokit := OctokitClient.

(** *** The trace *)

Inductive Event :=
| EvRemote (req : Request) (res : Outcome Response)
| EvGetRepoBranches (owner repo : string) (res : Outcome (option (list Branch)))
| EvGetAuthenticatedUser (res : Outcome (option AuthUser))
| EvInvalidatePullRequestCache (owner repo : string) (pullNumber : Z)
| EvRevalidatePath (path : string) (type : option string)
| EvConsoleError (e : Exn).

Definition Trace := list Event.

(** How everything outside the file behaves.  Each collaborator may answer
    differently depending on all that has happened before. *)
Record World := {
  w_getOctokit : option Octokit;
  w_getGitHubToken : option string;
  w_remote : Trace -> Request -> Outcome Response;
  w_getRepoBranches : Trace -> string -> string -> Outcome (option (list Branch));
  w_getAuthenticatedUser : Trace -> Outcome (option AuthUser);
  w_invalidatePullRequestCache : Trace -> string -> string -> Z -> Outcome unit;
  w_revalidatePath : Trace -> string -> option string -> Outcome unit;
  w_getErrorMessage : Exn -> string;
  w_now : Z
}.

(** *** The monad of server actions

    A computation reads the world and the trace so far, and gives its outcome
    with the events it added.  Events survive an exception. *)
Definition M (A : Type) : Type := World -> Trace -> Outcome A * Trace.

Definition ret {A : Type} (a : A) : M A := fun _ _ => (Returned a, []).

Definition throw {A : Type} (e : Exn) : M A := fun _ _ => (Threw e, []).

Definition bind {A B : Type} (m : M A) (f : A -> M B) : M B :=
  fun w h =>
    match m w h with
    | (Returned a, e1) =>
        let (o, e2) := f a w (h ++ e1) in (o, e1 ++ e2)
    | (Threw x, e1) => (Threw x, e1)
    end.

(** [try { m } catch (e) { handler e }] *)
Definition tryCatch {A : Type} (m : M A) (handler : Exn -> M A) : M A :=
  fun w h =>
    match m w h with
    | (Returned a, e1) => (Returned a, e1)
    | (Threw x, e1) =>
        let (o, e2) := handler x w (h ++ e1) in (o, e1 ++ e2)
    end.

(** Two promises started together and awaited together: both run, and the
    first rejection in list order is the one reported. *)
Definition both {A B : Type} (m1 : M A) (m2 : M B) : M (A * B) :=
  fun w h =>
    let (o1, e1) := m1 w h in
    let (o2, e2) := m2 w (h ++ e1) in
    (match o1, o2 with
     | Returned a, Returned b => Returned (a, b)
     | Threw x, _ => Threw x
     | _, Threw x => Threw x
     end, e1 ++ e2).

End Effects.

Export Effects.

Declare Scope action_scope.
Delimit Scope action_scope with action.
Notation "'let*' x ':=' m 'in' k" := (bind m (fun x => k))
  (at level 10, x name, m at level 100, k at level 200) : action_scope.

(** ** The server actions *)

Module Actions.

Local Open Scope list_scope.
Local Open Scope action_scope.

(** *** Primitive effects *)

(** [await getOctokit()] *)
Definition getOctokit : M (option Octokit) :=
  fun w _ => (Returned (w_getOctokit w), []).

(** [await getGitHubToken()] *)
Definition getGitHubToken : M (option string) :=
  fun w _ => (Returned (w_getGitHubToken w), []).

(** Any awaited call to the hosting API, REST through the client or GraphQL
    through [fetch]. *)
Definition callRemote (req : Request) : M Response :=
  fun w h => let o := w_remote w h req in (o, [EvRemote req o]).

(** [await getRepoBranches(owner, repo)] *)
Definition getRepoBranches (owner repo : string) : M (option (list Branch)) :=
  fun w h =>
    let o := w_getRepoBranches w h owner repo in (o, [EvGetRepoBranches owner repo o]).

(** [await getAuthenticatedUser()] *)
Definition getAuthenticatedUser : M (option AuthUser) :=
  fun w h => let o := w_getAuthenticatedUser w h in (o, [EvGetAuthenticatedUser o]).

(** [await invalidatePullRequestCache(owner, repo, pullNumber)] *)
Definition invalidatePullRequestCache (owner repo : string) (pullNumber : Z) : M unit :=
  fun w h =>
    (w_invalidatePullRequestCache w h owner repo pullNumber,
     [EvInvalidatePullRequestCache owner repo pullNumber]).

(** [revalidatePath(path)] and [revalidatePath(path, "layout")] *)
Definition revalidatePath (path : string) (type : option string) : M unit :=
  fun w h => (w_revalidatePath w h path type, [EvRevalidatePath path type]).

(** [getErrorMessage(e)] *)
Definition getErrorMessage (e : Exn) : M string :=
  fun w _ => (Returned (w_getErrorMessage w e), []).

(** [new Date()] *)
Definition currentTime : M Z := fun w _ => (Returned (w_now w), []).

(** [console.error(..., e)] *)
Definition consoleError (e : Exn) : M unit :=
  fun _ _ => (Returned tt, [EvConsoleError e]).

(** [if (c) { m }] *)
Definition when (c : bool) (m : M unit) : M unit := if c then m else ret tt.

(** [Promise.all] over a list of started promises. *)
Fixpoint promiseAll {A : Type} (ms : list (M A)) : M (list A) :=
  match ms with
  | [] => ret []
  | m :: rest =>
      let* p := both m (promiseAll rest) in
      ret (fst p :: snd p)
  end.

(** Reading the fields the code destructures from a response; a response of
    another shape makes the read fail as a [TypeError]. *)
Definition contentOf (r : Response) : M ContentData :=
  match r with
  | RContent d => ret d
  | _ => throw (typeError "data is not a content entry")
  end.

Definition contentShaOf (r : Response) : M (option string) :=
  match r with
  | RFileCommit s => ret s
  | _ => throw (typeError "data.content is not readable")
  end.

Definition objectShaOf (r : Response) : M string :=
  match r with
  | RRef s => ret s
  | _ => throw (typeError "data.object is undefined")
  end.

Definition treeShaOf (r : Response) : M string :=
  match r with
  | RCommit s => ret s
  | _ => throw (typeError "data.tree is undefined")
  end.

Definition shaOf (r : Response) : M string :=
  match r with
  | RSha s => ret s
  | _ => throw (typeError "data.sha is undefined")
  end.

(** [await response.json()] *)
Definition jsonOf (r : Response) : M GqlJson :=
  match r with
  | RFetch _ (Returned j) => ret j
  | RFetch _ (Threw e) => throw e
  | _ => throw (typeError "response.json is not a function")
  end.

(** [response.ok] *)
Definition okOf (r : Response) : M bool :=
  match r with
  | RFetch ok _ => ret ok
  | _ => ret false
  end.

(** *** Results *)

(** The objects the mutations resolve to. *)
Inductive ActionResult :=
| Success
| SuccessNewSha (newSha : option string)
| SuccessMergeCommit (mergeCommitSha : string)
| Failure (error : string).

(** [catch (e) { return { error: getErrorMessage(e) || fallback } }] *)
Definition errorResult (fallback : string) (e : Exn) : M ActionResult :=
  let* msg := getErrorMessage e in
  ret (Failure (Js.orElse (Some msg) fallback)).

(** *** Cache revalidation *)

Inductive PRMutationScope := ScopeDetail | ScopeList | ScopeLayout.

Definition scope_eqb (a b : PRMutationScope) : bool :=
  match a, b with
  | ScopeDetail, ScopeDetail | ScopeList, ScopeList | ScopeLayout, ScopeLayout => true
  | _, _ => false
  end.

(** [scopes.includes(s)] *)
Definition includes (scopes : list PRMutationScope) (s : PRMutationScope) : bool :=
  existsb (scope_eqb s) scopes.

(** The object literal, as the finite map of its own keys. *)
Definition PR_ACTION_SCOPES : gmap string (list PRMutationScope) :=
  list_to_map
    [ ("merge", [ScopeDetail; ScopeList; ScopeLayout]);
      ("close", [ScopeDetail; ScopeList; ScopeLayout]);
      ("reopen", [ScopeDetail; ScopeList; ScopeLayout]);
      ("rename", [ScopeDetail; ScopeList]);
      ("updateBase", [ScopeDetail; ScopeList]);
      ("review", [ScopeDetail]);
      ("comment", [ScopeDetail]);
      ("reviewComment", [ScopeDetail]);
      ("suggestion", [ScopeDetail]);
      ("fileCommit", [ScopeDetail]);
      ("resolveThread", [ScopeDetail]);
      ("unresolveThread", [ScopeDetail]);
      ("conflictResolution", [ScopeDetail; ScopeList]) ].

(** [PR_ACTION_SCOPES[action] ?? ["detail"]] *)
Definition scopesOf (action : string) : list PRMutationScope :=
  match PR_ACTION_SCOPES !! action with
  | Some scopes => scopes
  | None => [ScopeDetail]
  end.

Definition detailPath (owner repo : string) (pullNumber : Z) : string :=
  ("/repos/" ++ owner ++ "/" ++ repo ++ "/pulls/" ++ Js.numberToString pullNumber)%string.

Definition listPath (owner repo : string) : string :=
  ("/repos/" ++ owner ++ "/" ++ repo ++ "/pulls")%string.

Definition layoutPath (owner repo : string) : string :=
  ("/repos/" ++ owner ++ "/" ++ repo)%string.

Definition revalidateAfterPRMutation (owner repo : string) (pullNumber : Z)
    (action : string) : M unit :=
  let scopes := scopesOf action in
  let* _ := invalidatePullRequestCache owner repo pullNumber in
  let* _ := when (includes scopes ScopeDetail)
              (revalidatePath (detailPath owner repo pullNumber) None) in
  let* _ := when (includes scopes ScopeList)
              (revalidatePath (listPath owner repo) None) in
  when (includes scopes ScopeLayout)
    (revalidatePath (layoutPath owner repo) (Some "layout"%string)).

(** *** Exported operations *)

Definition fetchBranchNames (owner repo : string) : M (list string) :=
  tryCatch
    (let* branches := getRepoBranches owner repo in
     ret (map branch_name (match branches with Some bs => bs | None => [] end)))
    (fun _ => ret []).

Definition updatePRBaseBranch (owner repo : string) (pullNumber : Z) (base : string)
    : M ActionResult :=
  let* octokit := getOctokit in
  match octokit with
  | None => ret (Failure "Not authenticated")
  | Some _ =>
      tryCatch
        (let* _ := callRemote (pulls_update owner repo pullNumber (UpdateBase base)) in
         let* _ := revalidateAfterPRMutation owner repo pullNumber "updateBase" in
         ret Success)
        (errorResult "Failed to update base branch")
  end.

Definition renamePullRequest (owner repo : string) (pullNumber : Z) (title : string)
    : M ActionResult :=
  let* octokit := getOctokit in
  match octokit with
  | None => ret (Failure "Not authenticated")
  | Some _ =>
      tryCatch
        (let* _ := callRemote (pulls_update owner repo pullNumber (UpdateTitle title)) in
         let* _ := revalidateAfterPRMutation owner repo pullNumber "rename" in
         ret Success)
        (errorResult "Failed to rename")
  end.

Definition mergePullRequest (owner repo : string) (pullNumber : Z) (method : MergeMethod)
    (commitTitle commitMessage : option string) : M ActionResult :=
  let* octokit := getOctokit in
  match octokit with
  | None => ret (Failure "Not authenticated")
  | Some _ =>
      tryCatch
        (let* _ := callRemote (pulls_merge owner repo pullNumber method
                                 (Js.truthy commitTitle) (Js.truthy commitMessage)) in
         let* _ := revalidateAfterPRMutation owner repo pullNumber "merge" in
         ret Success)
        (errorResult "Failed to merge")
  end.

Definition closePullRequest (owner repo : string) (pullNumber : Z) : M ActionResult :=
  let* octokit := getOctokit in
  match octokit with
  | None => ret (Failure "Not authenticated")
  | Some _ =>
      tryCatch
        (let* _ := callRemote (pulls_update owner repo pullNumber (UpdateState "closed")) in
         let* _ := revalidateAfterPRMutation owner repo pullNumber "close" in
         ret Success)
        (errorResult "Failed to close")
  end.

Definition reopenPullRequest (owner repo : string) (pullNumber : Z) : M ActionResult :=
  let* octokit := getOctokit in
  match octokit with
  | None => ret (Failure "Not authenticated")
  | Some _ =>
      tryCatch
        (let* _ := callRemote (pulls_update owner repo pullNumber (UpdateState "open")) in
         let* _ := revalidateAfterPRMutation owner repo pullNumber "reopen" in
         ret Success)
        (errorResult "Failed to reopen")
  end.

Definition submitPRReview (owner repo : string) (pullNumber : Z) (event : ReviewEvent)
    (body : option string) : M ActionResult :=
  let* octokit := getOctokit in
  match octokit with
  | None => ret (Failure "Not authenticated")
  | Some _ =>
      tryCatch
        (let* _ := callRemote (pulls_createReview owner repo pullNumber event
                                 (Js.truthy body)) in
         let* _ := revalidateAfterPRMutation owner repo pullNumber "review" in
         ret Success)
        (errorResult "Failed to submit review")
  end.

Definition addPRComment (owner repo : string) (pullNumber : Z) (body : string)
    : M ActionResult :=
  let* octokit := getOctokit in
  match octokit with
  | None => ret (Failure "Not authenticated")
  | Some _ =>
      tryCatch
        (let* _ := callRemote (issues_createComment owner repo pullNumber body) in
         let* _ := revalidateAfterPRMutation owner repo pullNumber "comment" in
         ret Success)
        (errorResult "Failed to add comment")
  end.

(** [params], with [start_line] and [start_side] set only for a range. *)
Definition reviewCommentParams (owner repo : string) (pullNumber : Z)
    (body commitId path : string) (line : Z) (side : Side)
    (startLine : option Z) (startSide : option Side) : ReviewCommentParams :=
  let range :=
    match startLine with
    | Some s => negb (s =? line)
    | None => false
    end in
  {| rc_owner := owner; rc_repo := repo; rc_pull_number := pullNumber;
     rc_body := body; rc_commit_id := commitId; rc_path := path;
     rc_line := line; rc_side := side;
     rc_start_line := if range then startLine else None;
     rc_start_side :=
       if range then Some (match startSide with Some s => s | None => side end)
       else None |}.

Definition addPRReviewComment (owner repo : string) (pullNumber : Z)
    (body commitId path : string) (line : Z) (side : Side)
    (startLine : option Z) (startSide : option Side) : M ActionResult :=
  let* octokit := getOctokit in
  match octokit with
  | None => ret (Failure "Not authenticated")
  | Some _ =>
      tryCatch
        (let params := reviewCommentParams owner repo pullNumber body commitId path
                         line side startLine startSide in
         let* _ := callRemote (pulls_createReviewComment params) in
         let* _ := revalidateAfterPRMutation owner repo pullNumber "reviewComment" in
         ret Success)
        (errorResult "Failed to add review comment")
  end.

(** [commitMessage || `Apply suggestion to ${path} (lines ${startLine}-${endLine})`] *)
Definition suggestionMessage (commitMessage : option string) (path : string)
    (startLine endLine : Z) : string :=
  Js.orElse commitMessage
    ("Apply suggestion to " ++ path ++ " (lines " ++ Js.numberToString startLine
       ++ "-" ++ Js.numberToString endLine ++ ")")%string.

Definition commitSuggestion (owner repo : string) (pullNumber : Z) (path branch : string)
    (startLine endLine : Z) (suggestion : string) (commitMessage : option string)
    : M ActionResult :=
  let* octokit := getOctokit in
  match octokit with
  | None => ret (Failure "Not authenticated")
  | Some _ =>
      tryCatch
        (let* response := callRemote (repos_getContent owner repo path branch) in
         let* fileData := contentOf response in
         match fileData with
         | ContentDirectory _ => ret (Failure "Not a file")
         | ContentEntry type content sha =>
             if negb (Js.strictEq type "file") then ret (Failure "Not a file")
             else
               let newContent :=
                 Suggestion.newContent content startLine endLine suggestion in
               let* _ := callRemote
                           (repos_createOrUpdateFileContents owner repo path
                              (suggestionMessage commitMessage path startLine endLine)
                              newContent sha branch) in
               let* _ := revalidateAfterPRMutation owner repo pullNumber "suggestion" in
               ret Success
         end)
        (errorResult "Failed to commit suggestion")
  end.

Definition commitFileEditOnPR (owner repo : string) (pullNumber : Z)
    (path branch content sha commitMessage : string) : M ActionResult :=
  let* octokit := getOctokit in
  match octokit with
  | None => ret (Failure "Not authenticated")
  | Some _ =>
      tryCatch
        (let* response := callRemote
                            (repos_createOrUpdateFileContents owner repo path
                               commitMessage content sha branch) in
         let* _ := revalidateAfterPRMutation owner repo pullNumber "fileCommit" in
         let* newSha := contentShaOf response in
         ret (SuccessNewSha newSha))
        (errorResult "Failed to commit file edit")
  end.

(** [json.errors?.length] is truthy: the list is there and not empty. *)
Definition firstError (json : GqlJson) : option GqlError :=
  match json_errors json with
  | Some (e :: _) => Some e
  | _ => None
  end.

Definition resolveReviewThread (threadId owner repo : string) (pullNumber : Z)
    : M ActionResult :=
  let* token := getGitHubToken in
  match Js.truthy token with
  | None => ret (Failure "Not authenticated")
  | Some token =>
      tryCatch
        (let* response := callRemote (graphql token (ResolveReviewThreadMutation threadId)) in
         let* json := jsonOf response in
         match firstError json with
         | Some e => ret (Failure (message e))
         | None =>
             let* _ := revalidateAfterPRMutation owner repo pullNumber "resolveThread" in
             ret Success
         end)
        (errorResult "Failed to resolve thread")
  end.

Definition unresolveReviewThread (threadId owner repo : string) (pullNumber : Z)
    : M ActionResult :=
  let* token := getGitHubToken in
  match Js.truthy token with
  | None => ret (Failure "Not authenticated")
  | Some token =>
      tryCatch
        (let* response := callRemote (graphql token (UnresolveReviewThreadMutation threadId)) in
         let* json := jsonOf response in
         match firstError json with
         | Some e => ret (Failure (message e))
         | None =>
             let* _ := revalidateAfterPRMutation owner repo pullNumber "unresolveThread" in
             ret Success
         end)
        (errorResult "Failed to unresolve thread")
  end.

Record ResolvedFile := { file_path : string; file_content : string }.

(** The body of [resolvedFiles.map(async (file) => ...)]. *)
Definition createBlobEntry (owner repo : string) (file : ResolvedFile) : M TreeEntry :=
  let* response := callRemote (git_createBlob owner repo (file_content file) "base64") in
  let* sha := shaOf response in
  ret {| te_path := file_path file; te_mode := "100644"; te_type := "blob"; te_sha := sha |}.

(** The [author] of the merge commit, when a user is signed in. *)
Definition commitAuthor (user : option AuthUser) (now : Z) : option CommitAuthor :=
  match user with
  | None => None
  | Some u =>
      Some {| author_name := Js.orElse (user_name u) (Js.orElse (user_login u) "User");
              author_email :=
                Js.orElse (user_email u)
                  ((match user_login u with Some l => l | None => "undefined" end)
                     ++ "@users.noreply.github.com")%string;
              author_date := now |}
  end.

Definition commitMergeConflictResolution (owner repo : string) (pullNumber : Z)
    (headBranch baseBranch : string) (resolvedFiles : list ResolvedFile)
    (commitMessage : option string) : M ActionResult :=
  let* octokit := getOctokit in
  match octokit with
  | None => ret (Failure "Not authenticated")
  | Some _ =>
      tryCatch
        (let* refs := both (callRemote (git_getRef owner repo ("heads/" ++ headBranch)%string))
                           (callRemote (git_getRef owner repo ("heads/" ++ baseBranch)%string)) in
         let* headSha := objectShaOf (fst refs) in
         let* baseSha := objectShaOf (snd refs) in
         let* headCommit := callRemote (git_getCommit owner repo headSha) in
         let* treeEntries := promiseAll (map (createBlobEntry owner repo) resolvedFiles) in
         let* baseTree := treeShaOf headCommit in
         let* newTree := callRemote (git_createTree owner repo baseTree treeEntries) in
         let message :=
           Js.orElse commitMessage
             ("Merge branch '" ++ baseBranch ++ "' into " ++ headBranch)%string in
         let* user := getAuthenticatedUser in
         let* newTreeSha := shaOf newTree in
         let* now := currentTime in
         let* mergeCommit := callRemote
                               (git_createCommit owner repo message newTreeSha
                                  [headSha; baseSha] (commitAuthor user now)) in
         let* mergeCommitSha := shaOf mergeCommit in
         let* _ := callRemote (git_updateRef owner repo ("heads/" ++ headBranch)%string
                                 mergeCommitSha) in
         let* _ := revalidateAfterPRMutation owner repo pullNumber "conflictResolution" in
         ret (SuccessMergeCommit mergeCommitSha))
        (errorResult "Failed to commit merge resolution")
  end.

End Actions.

(** ** The contributor scorer *)

Module Scorer.

Local Open Scope list_scope.

(** An element of [prsInRepo]. *)
Record PrEntry := { state : string }.

(** The object the dossier passes to the scorer (its eleven fields, as the
    call site writes them). *)
Record ContributorSnapshot := {
  followers : Z;
  publicRepos : Z;
  accountCreated : string;
  commitsInRepo : Z;
  prsInRepo : list PrEntry;
  reviewsInRepo : Z;
  isContributor : bool;
  contributionCount : Z;
  isOrgMember : bool;
  isOwner : bool;
  topRepoStars : list Z
}.

(** The arguments of one call of the scorer: the snapshot, and the reference
    instant when the caller gives one. *)
Record ScorerCall := {
  arg_snapshot : ContributorSnapshot;
  arg_now : option Z
}.

(** Modelled from the spec: the constants of lib/contributor-score, which is
    not among the sources.  The spec fixes the shape of the score (scaled
    sub-signals, flat bonuses, a final clamp into the documented range) and
    leaves every constant to the implementer; they are the fields here. *)
Record ScoringParams := {
  MAX : Z;
  parseInstant : string -> option Z;
  followersPoints : Z -> Z;
  publicReposPoints : Z -> Z;
  accountAgePoints : Z -> Z;
  commitsPoints : Z -> Z;
  prMixPoints : Z -> Z -> Z;
  reviewsPoints : Z -> Z;
  contributionPoints : Z -> Z;
  fameAggregate : list Z -> Z;
  famePoints : Z -> Z;
  contributorBonus : Z;
  orgMemberBonus : Z;
  ownerBonus : Z
}.

(** Modelled from the spec: invalid numeric inputs are clamped to zero. *)
Definition nonNegative (x : Z) : Z := Z.max 0 x.

(** Modelled from the spec: the final clamp into the documented range. *)
Definition clamp (lo hi x : Z) : Z := Z.max lo (Z.min hi x).

(** Modelled from the spec: a status bonus is a flat amount added when the
    flag is true. *)
Definition bonus (flag : bool) (amount : Z) : Z := if flag then amount else 0.

(** Modelled from the spec: the number of merged entries of [prsInRepo]. *)
Definition mergedCount (prs : list PrEntry) : Z :=
  Z.of_nat (length (List.filter (fun p => String.eqb (state p) "merged") prs)).

(** Modelled from the spec: the account-age contribution; a missing or
    unparseable [accountCreated] contributes zero. *)
Definition ageContribution (P : ScoringParams) (now : Z) (accountCreated : string) : Z :=
  match parseInstant P accountCreated with
  | Some created => accountAgePoints P (nonNegative (now - created))
  | None => 0
  end.

(** Modelled from the spec: the fame contribution; an empty [topRepoStars]
    contributes zero. *)
Definition fameContribution (P : ScoringParams) (stars : list Z) : Z :=
  match stars with
  | [] => 0
  | _ => famePoints P (fameAggregate P (map nonNegative stars))
  end.

(** Modelled from the spec: the sum of the sub-signals and the bonuses,
    before the clamp. *)
Definition rawScore (P : ScoringParams) (now : Z) (s : ContributorSnapshot) : Z :=
  followersPoints P (nonNegative (followers s))
  + publicReposPoints P (nonNegative (publicRepos s))
  + ageContribution P now (accountCreated s)
  + commitsPoints P (nonNegative (commitsInRepo s))
  + prMixPoints P (mergedCount (prsInRepo s)) (Z.of_nat (length (prsInRepo s)))
  + reviewsPoints P (nonNegative (reviewsInRepo s))
  + contributionPoints P (nonNegative (contributionCount s))
  + fameContribution P (topRepoStars s)
  + bonus (isContributor s) (contributorBonus P)
  + bonus (isOrgMember s) (orgMemberBonus P)
  + bonus (isOwner s) (ownerBonus P).

(** Modelled from the spec: [computeScore(snapshot)] with the reference
    instant as an explicit input; the result is clamped after summation. *)
Definition computeScore (P : ScoringParams) (now : Z) (s : ContributorSnapshot) : Z :=
  clamp 0 (MAX P) (rawScore P now s).

(** Modelled from the spec: [computeContributorScore] as the dossier calls
    it.  A caller may give the reference instant; a call that gives none is
    scored at the instant the process clock shows. *)
Definition computeContributorScore (P : ScoringParams) (processClock : Z)
    (call : ScorerCall) : Z :=
  computeScore P
    (match arg_now call with Some now => now | None => processClock end)
    (arg_snapshot call).

(** Modelled from the spec: one admissible choice of the constants the spec
    leaves open, used to run the scorer on examples.  Sub-signals are capped
    linear, the range is 0..100, and instants are decimal numbers of days. *)
Definition capped (cap x : Z) : Z := Z.min cap x.

(** Modelled from the spec: a decimal digit of an instant. *)
Definition digitValue (c : ascii) : option Z :=
  let n := nat_of_ascii c in
  if ((48 <=? n)%nat && (n <=? 57)%nat)%bool then Some (Z.of_nat (n - 48)) else None.

(** Modelled from the spec: the digits of an instant, most significant first. *)
Fixpoint parseDigits (acc : Z) (s : string) : option Z :=
  match s with
  | EmptyString => Some acc
  | String c r =>
      match digitValue c with
      | Some d => parseDigits (10 * acc + d) r
      | None => None
      end
  end.

(** Modelled from the spec: an instant; the empty string does not parse. *)
Definition parseDays (s : string) : option Z :=
  match s with
  | EmptyString => None
  | _ => parseDigits 0 s
  end.

(** Modelled from the spec: the example constants. *)
Definition exampleParams : ScoringParams := {|
  MAX := 100;
  parseInstant := parseDays;
  followersPoints := fun x => capped 15 (x / 100);
  publicReposPoints := fun x => capped 10 (x / 5);
  accountAgePoints := fun days => capped 10 (days / 365);
  commitsPoints := fun x => capped 15 x;
  prMixPoints := fun merged total =>
                   if total =? 0 then 0 else capped 10 (merged * merged / total);
  reviewsPoints := fun x => capped 10 x;
  contributionPoints := fun x => capped 10 x;
  fameAggregate := fun stars => fold_right Z.max 0 stars;
  famePoints := fun x => capped 15 (x / 1000);
  contributorBonus := 10;
  orgMemberBonus := 15;
  ownerBonus := 20
|}.

End Scorer.

(** ** The contributor dossier *)

Module Dossier.

Local Open Scope list_scope.
Local Open Scope action_scope.
Import Actions.

Record Org := { org_login_ : option string; org_avatar_url : option string }.

Record TopRepo := {
  top_name : string;
  top_full_name : string;
  top_stargazers_count : N;
  top_language : option string
}.

Record Author := {
  author_login : option string;
  author_display_name : option string;
  author_avatar_url : option string;
  author_bio : option string;
  author_company : option string;
  author_location : option string;
  author_blog : option string;
  author_twitter_username : option string;
  author_public_repos : N;
  author_followers : N;
  author_following : N;
  author_created_at : option string;
  author_type : string
}.

Record RepoActivity := {
  activity_commits : N;
  activity_prs : N;
  activity_reviews : N;
  activity_issues : N
}.

Record AuthorDossier := {
  dossier_author : Author;
  dossier_orgs : list Org;
  dossier_topRepos : list TopRepo;
  dossier_isOrgMember : bool;
  dossier_score : Z;
  dossier_contributionCount : N;
  dossier_repoActivity : RepoActivity
}.

(** [x ?? 0] on a count. *)
Definition orZero (x : option N) : N := match x with Some n => n | None => 0%N end.

(** [x ?? []] *)
Definition orEmpty {A : Type} (x : option (list A)) : list A :=
  match x with Some l => l | None => [] end.

(** The locals of [fetchAuthorDossierGraphQL] once the user node is there. *)
Section Locals.

Variables (owner authorLogin : string) (u : UserNode) (data : GqlData).

Definition orgs : list Org :=
  map (fun o => {| org_login_ := org_login o; org_avatar_url := org_avatarUrl o |})
      (orEmpty (u_organizations u)).

Definition topRepos : list TopRepo :=
  map (fun r => {| top_name := repo_name r;
                   top_full_name := repo_nameWithOwner r;
                   top_stargazers_count := orZero (repo_stargazerCount r);
                   top_language := repo_primaryLanguage r |})
      (orEmpty (u_topRepositories u)).

(** [orgs.some((o) => o.login?.toLowerCase() === owner.toLowerCase())] *)
Definition isOrgMember : bool :=
  existsb (fun o => match org_login_ o with
                    | Some l => Js.strictEq (Js.toLowerCase l) (Js.toLowerCase owner)
                    | None => false
                    end) orgs.

Definition openPrs : N := orZero (d_openPrs data).
Definition mergedPrs : N := orZero (d_mergedPrs data).
Definition closedPrs : N := orZero (d_closedPrs data).
Definition totalPrs : N := (openPrs + mergedPrs + closedPrs)%N.
Definition issueCount : N := orZero (d_issues data).
Definition reviewCount : N := orZero (d_reviews data).

(** [Array(n).fill(x)] *)
Definition filled {A : Type} (n : N) (x : A) : list A := repeat x (N.to_nat n).

Definition prsInRepo : list Scorer.PrEntry :=
  filled mergedPrs {| Scorer.state := "merged" |}
  ++ filled closedPrs {| Scorer.state := "closed" |}
  ++ filled openPrs {| Scorer.state := "open" |}.

Definition contributionCount : N := (mergedPrs + reviewCount)%N.
Definition isContributor : bool := (0 <? contributionCount)%N.

(** The object literal passed to [computeContributorScore]. *)
Definition snapshot : Scorer.ContributorSnapshot := {|
  Scorer.followers := Z.of_N (orZero (u_followers u));
  Scorer.publicRepos := Z.of_N (orZero (u_repositories u));
  Scorer.accountCreated := match u_createdAt u with Some c => c | None => "" end;
  Scorer.commitsInRepo := Z.of_N mergedPrs;
  Scorer.prsInRepo := prsInRepo;
  Scorer.reviewsInRepo := Z.of_N reviewCount;
  Scorer.isContributor := isContributor;
  Scorer.contributionCount := Z.of_N contributionCount;
  Scorer.isOrgMember := isOrgMember;
  Scorer.isOwner := Js.strictEq (Js.toLowerCase authorLogin) (Js.toLowerCase owner);
  Scorer.topRepoStars := map (fun r => Z.of_N (top_stargazers_count r)) topRepos
|}.

(** The call [computeContributorScore({ ... })]: one argument, the snapshot. *)
Definition scorerCall : Scorer.ScorerCall :=
  {| Scorer.arg_snapshot := snapshot; Scorer.arg_now := None |}.

Definition author : Author := {|
  author_login := u_login u;
  author_display_name := u_name u;
  author_avatar_url := u_avatarUrl u;
  author_bio := u_bio u;
  author_company := u_company u;
  author_location := u_location u;
  author_blog := u_websiteUrl u;
  author_twitter_username := u_twitterUsername u;
  author_public_repos := orZero (u_repositories u);
  author_followers := orZero (u_followers u);
  author_following := orZero (u_following u);
  author_created_at := u_createdAt u;
  author_type := if Js.strictEq (u_typename u) "Bot" then "Bot" else "User"
|}.

(** The returned object, given the score. *)
Definition dossier (score : Z) : AuthorDossier := {|
  dossier_author := author;
  dossier_orgs := orgs;
  dossier_topRepos := Js.slice topRepos 0 3;
  dossier_isOrgMember := isOrgMember;
  dossier_score := score;
  dossier_contributionCount := contributionCount;
  dossier_repoActivity :=
    {| activity_commits := mergedPrs;
       activity_prs := totalPrs;
       activity_reviews := reviewCount;
       activity_issues := issueCount |}
|}.

End Locals.

Section Fetch.

Variable P : Scorer.ScoringParams.

(** The scorer, run in the process that serves the request. *)
Definition score (call : Scorer.ScorerCall) : M Z :=
  fun w _ => (Returned (Scorer.computeContributorScore P (w_now w) call), []).

Definition fetchAuthorDossierGraphQL (token owner repo authorLogin : string)
    : M (option AuthorDossier) :=
  let slug := (owner ++ "/" ++ repo)%string in
  let* response := callRemote (graphql token (AuthorDossierQuery slug authorLogin)) in
  let* ok := okOf response in
  if negb ok then ret None
  else
    let* json := jsonOf response in
    match json_data json with
    | None => ret None
    | Some data =>
        match d_user data with
        | None => ret None
        | Some u =>
            let* s := score (scorerCall owner authorLogin u data) in
            ret (Some (dossier owner u data s))
        end
    end.

Definition fetchAuthorDossier (owner repo authorLogin : string)
    : M (option AuthorDossier) :=
  tryCatch
    (let* token := getGitHubToken in
     match Js.truthy token with
     | None => ret None
     | Some token => fetchAuthorDossierGraphQL token owner repo authorLogin
     end)
    (fun e => let* _ := consoleError e in ret None).

End Fetch.

End Dossier.

(** ** The exported mutations as one family

    Statements about every mutation range over this type: one constructor
    per exported mutation, with that operation's parameters. *)

Module Exported.

Local Open Scope list_scope.
Import Actions.

Inductive Mutation :=
| UpdatePRBaseBranch (owner repo : string) (pullNumber : Z) (base : string)
| RenamePullRequest (owner repo : string) (pullNumber : Z) (title : string)
| MergePullRequest (owner repo : string) (pullNumber : Z) (method : MergeMethod)
    (commitTitle commitMessage : option string)
| ClosePullRequest (owner repo : string) (pullNumber : Z)
| ReopenPullRequest (owner repo : string) (pullNumber : Z)
| SubmitPRReview (owner repo : string) (pullNumber : Z) (event : ReviewEvent)
    (body : option string)
| AddPRComment (owner repo : string) (pullNumber : Z) (body : string)
| AddPRReviewComment (owner repo : string) (pullNumber : Z)
    (body commitId path : string) (line : Z) (side : Side)
    (startLine : option Z) (startSide : option Side)
| CommitSuggestion (owner repo : string) (pullNumber : Z) (path branch : string)
    (startLine endLine : Z) (suggestion : string) (commitMessage : option string)
| CommitFileEditOnPR (owner repo : string) (pullNumber : Z)
    (path branch content sha commitMessage : string)
| ResolveReviewThread (threadId owner repo : string) (pullNumber : Z)
| UnresolveReviewThread (threadId owner repo : string) (pullNumber : Z)
| CommitMergeConflictResolution (owner repo : string) (pullNumber : Z)
    (headBranch baseBranch : string) (resolvedFiles : list ResolvedFile)
    (commitMessage : option string).

(** Calling the operation. *)
Definition run (m : Mutation) : M ActionResult :=
  match m with
  | UpdatePRBaseBranch o r n base => updatePRBaseBranch o r n base
  | RenamePullRequest o r n title => renamePullRequest o r n title
  | MergePullRequest o r n method t msg => mergePullRequest o r n method t msg
  | ClosePullRequest o r n => closePullRequest o r n
  | ReopenPullRequest o r n => reopenPullRequest o r n
  | SubmitPRReview o r n ev body => submitPRReview o r n ev body
  | AddPRComment o r n body => addPRComment o r n body
  | AddPRReviewComment o r n body c p line side sl ss =>
      addPRReviewComment o r n body c p line side sl ss
  | CommitSuggestion o r n p b sl el s msg => commitSuggestion o r n p b sl el s msg
  | CommitFileEditOnPR o r n p b c sha msg => commitFileEditOnPR o r n p b c sha msg
  | ResolveReviewThread t o r n => resolveReviewThread t o r n
  | UnresolveReviewThread t o r n => unresolveReviewThread t o r n
  | CommitMergeConflictResolution o r n hb bb files msg =>
      commitMergeConflictResolution o r n hb bb files msg
  end.

(** The pull request an operation is about. *)
Definition pullOf (m : Mutation) : string * string * Z :=
  match m with
  | UpdatePRBaseBranch o r n _ | RenamePullRequest o r n _
  | MergePullRequest o r n _ _ _ | ClosePullRequest o r n | ReopenPullRequest o r n
  | SubmitPRReview o r n _ _ | AddPRComment o r n _
  | AddPRReviewComment o r n _ _ _ _ _ _ _ | CommitSuggestion o r n _ _ _ _ _ _
  | CommitFileEditOnPR o r n _ _ _ _ _ | ResolveReviewThread _ o r n
  | UnresolveReviewThread _ o r n | CommitMergeConflictResolution o r n _ _ _ _ =>
      (o, r, n)
  end.

(** Which provider the operation asks for its credentials: the two thread
    operations take the raw token, the others the client. *)
Definition usesToken (m : Mutation) : bool :=
  match m with
  | ResolveReviewThread _ _ _ _ | UnresolveReviewThread _ _ _ _ => true
  | _ => false
  end.

(** The provider gave nothing the operation accepts. *)
Definition unauthenticated (w : World) (m : Mutation) : bool :=
  if usesToken m
  then match Js.truthy (w_getGitHubToken w) with None => true | Some _ => false end
  else match w_getOctokit w with None => true | Some _ => false end.

(** The scopes each operation revalidates, as the specification states them. *)
Definition statedScopes (m : Mutation) : list PRMutationScope :=
  match m with
  | MergePullRequest _ _ _ _ _ _ | ClosePullRequest _ _ _ | ReopenPullRequest _ _ _ =>
      [ScopeDetail; ScopeList; ScopeLayout]
  | RenamePullRequest _ _ _ _ | UpdatePRBaseBranch _ _ _ _
  | CommitMergeConflictResolution _ _ _ _ _ _ _ =>
      [ScopeDetail; ScopeList]
  | SubmitPRReview _ _ _ _ _ | AddPRComment _ _ _ _
  | AddPRReviewComment _ _ _ _ _ _ _ _ _ _ | CommitSuggestion _ _ _ _ _ _ _ _ _
  | CommitFileEditOnPR _ _ _ _ _ _ _ _ | ResolveReviewThread _ _ _ _
  | UnresolveReviewThread _ _ _ _ =>
      [ScopeDetail]
  end.

(** The stated table, keyed by action name; any other name gets the detail
    scope. *)
Definition statedTable (action : string) : list PRMutationScope :=
  if decide (action ∈ ["merge"; "close"; "reopen"])
  then [ScopeDetail; ScopeList; ScopeLayout]
  else if decide (action ∈ ["rename"; "updateBase"; "conflictResolution"])
  then [ScopeDetail; ScopeList]
  else [ScopeDetail].

(** The [revalidatePath] call of one scope. *)
Definition revalidation (owner repo : string) (pullNumber : Z) (s : PRMutationScope)
    : Event :=
  match s with
  | ScopeDetail => EvRevalidatePath (detailPath owner repo pullNumber) None
  | ScopeList => EvRevalidatePath (listPath owner repo) None
  | ScopeLayout => EvRevalidatePath (layoutPath owner repo) (Some "layout")
  end.

(** The cache step for a list of scopes: the invalidation, then one
    revalidation per scope. *)
Definition cacheStep (owner repo : string) (pullNumber : Z)
    (scopes : list PRMutationScope) : Trace :=
  EvInvalidatePullRequestCache owner repo pullNumber
    :: map (revalidation owner repo pullNumber) scopes.

Definition isSuccess (r : ActionResult) : bool :=
  match r with
  | Failure _ => false
  | _ => true
  end.

(** *** Reading a trace *)

(** Cache invalidation and path revalidation. *)
Definition isCache (ev : Event) : bool :=
  match ev with
  | EvInvalidatePullRequestCache _ _ _ | EvRevalidatePath _ _ => true
  | _ => false
  end.

(** A call that ended in a thrown failure: the call itself rejected, or the
    body of a GraphQL response could not be read. *)
Definition threw (ev : Event) : bool :=
  match ev with
  | EvRemote _ (Threw _) => true
  | EvRemote (graphql _ _) (Returned (RFetch _ (Threw _))) => true
  | EvGetRepoBranches _ _ (Threw _) => true
  | EvGetAuthenticatedUser (Threw _) => true
  | _ => false
  end.

(** A GraphQL response that carries a non-empty error list. *)
Definition graphqlErrors (ev : Event) : bool :=
  match ev with
  | EvRemote (graphql _ _) (Returned (RFetch _ (Returned json))) =>
      match firstError json with Some _ => true | None => false end
  | _ => false
  end.

(** A GraphQL response whose HTTP status is not a success. *)
Definition notOk (ev : Event) : bool :=
  match ev with
  | EvRemote (graphql _ _) (Returned (RFetch false _)) => true
  | _ => false
  end.

(** The cache events of a trace, in order. *)
Definition cacheEvents (t : Trace) : Trace := List.filter isCache t.

(** No call to the hosting API follows a cache event. *)
Fixpoint cacheLast (t : Trace) : bool :=
  match t with
  | [] => true
  | ev :: rest => if isCache ev then forallb isCache rest else cacheLast rest
  end.

(** The events of the cache step as the three [if]s of
    [revalidateAfterPRMutation] issue them: detail, list, layout, each at
    most once. *)
Definition issued (owner repo : string) (pullNumber : Z) (scopes : list PRMutationScope)
    : Trace :=
  EvInvalidatePullRequestCache owner repo pullNumber
    :: (if includes scopes ScopeDetail
        then [revalidation owner repo pullNumber ScopeDetail] else [])
    ++ (if includes scopes ScopeList
        then [revalidation owner repo pullNumber ScopeList] else [])
    ++ (if includes scopes ScopeLayout
        then [revalidation owner repo pullNumber ScopeLayout] else []).

(** What one run of a mutation is shown to satisfy: it returns; without
    credentials it does nothing; a failed call gives an error and leaves the
    cache alone; a success ran the cache step of its scopes; and no remote
    call follows a cache event. *)
Definition Facts (m : Mutation) (w : World) (out : Outcome ActionResult) (evs : Trace)
    : Prop :=
  exists r,
    out = Returned r
    /\ (unauthenticated w m = true -> r = Failure "Not authenticated" /\ evs = [])
    /\ (existsb threw evs || existsb graphqlErrors evs = true ->
        (exists msg, r = Failure msg) /\ cacheEvents evs = [])
    /\ (isSuccess r = true ->
        cacheEvents evs
        = (let '(owner, repo, pullNumber) := pullOf m in
           cacheStep owner repo pullNumber (statedScopes m)))
    /\ cacheLast evs = true.

End Exported.

(** ** Worlds and data for worked examples *)

Module Examples.

Local Open Scope list_scope.

Definition exampleUser : UserNode := {|
  u_login := Some "octocat"; u_name := Some "The Octocat"; u_avatarUrl := None;
  u_bio := None; u_company := Some "@github"; u_location := None;
  u_websiteUrl := None; u_twitterUsername := None;
  u_repositories := Some 8%N; u_followers := Some 1000000000%N; u_following := Some 9%N;
  u_createdAt := Some "15000"; u_typename := "User";
  u_topRepositories :=
    Some [ {| repo_name := "Hello-World"; repo_nameWithOwner := "octocat/Hello-World";
              repo_stargazerCount := Some 1000000000%N; repo_primaryLanguage := None |};
           {| repo_name := "Spoon-Knife"; repo_nameWithOwner := "octocat/Spoon-Knife";
              repo_stargazerCount := None; repo_primaryLanguage := Some "HTML" |} ];
  u_organizations :=
    Some [ {| org_login := Some "GitHub"; org_avatarUrl := None |};
           {| org_login := None; org_avatarUrl := None |} ]
|}.

Definition exampleData : GqlData := {|
  d_user := Some exampleUser;
  d_openPrs := Some 1%N; d_mergedPrs := Some 2%N; d_closedPrs := None;
  d_issues := Some 4%N; d_reviews := Some 3%N
|}.

Definition notFound : Exn := {| exn_name := "HttpError"; exn_message := "Not Found" |}.

(** A hosting API that accepts every call. *)
Definition accepting : Trace -> Request -> Outcome Response :=
  fun _ _ => Returned RNone.

(** A hosting API that rejects every call. *)
Definition rejecting : Trace -> Request -> Outcome Response :=
  fun _ _ => Threw notFound.

(** A GraphQL endpoint that answers the dossier query with [exampleData]. *)
Definition answeringDossier : Trace -> Request -> Outcome Response :=
  fun _ _ =>
    Returned (RFetch true (Returned {| json_errors := None;
                                       json_data := Some exampleData |})).

(** A GraphQL endpoint that answers with an error list. *)
Definition refusing : Trace -> Request -> Outcome Response :=
  fun _ _ =>
    Returned (RFetch true
                (Returned {| json_errors :=
                               Some [ {| message := "Could not resolve to a node" |} ];
                             json_data := None |})).

Definition world (client : option Octokit) (token : option string)
    (remote : Trace -> Request -> Outcome Response)
    (branches : Outcome (option (list Branch))) (clock : Z) : World := {|
  w_getOctokit := client;
  w_getGitHubToken := token;
  w_remote := remote;
  w_getRepoBranches := fun _ _ _ => branches;
  w_getAuthenticatedUser := fun _ => Returned None;
  w_invalidatePullRequestCache := fun _ _ _ _ => Returned tt;
  w_revalidatePath := fun _ _ _ => Returned tt;
  w_getErrorMessage := exn_message;
  w_now := clock
|}.

(** A signed-in user, a hosting API behaving as [remote], the clock at
    [clock]. *)
Definition signedIn (remote : Trace -> Request -> Outcome Response) (clock : Z) : World :=
  world (Some OctokitClient) (Some "gho_token") remote
    (Returned (Some [ {| branch_name := "main" |}; {| branch_name := "dev" |} ])) clock.

(** A GraphQL endpoint that answers with an HTTP error status and a body
    without an error list. *)
Definition unauthorized : Trace -> Request -> Outcome Response :=
  fun _ _ =>
    Returned (RFetch false (Returned {| json_errors := None; json_data := None |})).

Definition cacheUnavailable : Exn :=
  {| exn_name := "Error"; exn_message := "cache unavailable" |}.

(** A signed-in user and a hosting API that accepts every call, while the
    cache layer rejects the invalidation. *)
Definition cacheDown : World := {|
  w_getOctokit := Some OctokitClient;
  w_getGitHubToken := Some "gho_token";
  w_remote := accepting;
  w_getRepoBranches := fun _ _ _ => Returned None;
  w_getAuthenticatedUser := fun _ => Returned None;
  w_invalidatePullRequestCache := fun _ _ _ _ => Threw cacheUnavailable;
  w_revalidatePath := fun _ _ _ => Returned tt;
  w_getErrorMessage := exn_message;
  w_now := 0
|}.

(** A signed-in user while the hosting API is down. *)
Definition offline : World :=
  world (Some OctokitClient) (Some "gho_token") rejecting (Threw notFound) 0.

(** Nobody is signed in. *)
Definition signedOut : World :=
  world None None accepting (Returned None) 0.

(** The snapshot of [exampleUser] in a repository of the organization
    "github". *)
Definition exampleSnapshot : Scorer.ContributorSnapshot :=
  Dossier.snapshot "github" "octocat" exampleUser exampleData.

End Examples.

(** ** Requests and messages of the mutations, for statements about them *)

Module Requests.

Local Open Scope list_scope.
Import Actions Exported.

(** The message each [catch] block falls back to. *)
Definition fallbackMessage (m : Mutation) : string :=
  match m with
  | UpdatePRBaseBranch _ _ _ _ => "Failed to update base branch"
  | RenamePullRequest _ _ _ _ => "Failed to rename"
  | MergePullRequest _ _ _ _ _ _ => "Failed to merge"
  | ClosePullRequest _ _ _ => "Failed to close"
  | ReopenPullRequest _ _ _ => "Failed to reopen"
  | SubmitPRReview _ _ _ _ _ => "Failed to submit review"
  | AddPRComment _ _ _ _ => "Failed to add comment"
  | AddPRReviewComment _ _ _ _ _ _ _ _ _ _ => "Failed to add review comment"
  | CommitSuggestion _ _ _ _ _ _ _ _ _ => "Failed to commit suggestion"
  | CommitFileEditOnPR _ _ _ _ _ _ _ _ => "Failed to commit file edit"
  | ResolveReviewThread _ _ _ _ => "Failed to resolve thread"
  | UnresolveReviewThread _ _ _ _ => "Failed to unresolve thread"
  | CommitMergeConflictResolution _ _ _ _ _ _ _ => "Failed to commit merge resolution"
  end.

(** The request of a mutation that makes one remote call, given the token
    the thread mutations send; the two mutations that make several calls
    have none. *)
Definition singleRequest (token : string) (m : Mutation) : option Request :=
  match m with
  | UpdatePRBaseBranch o r n base => Some (pulls_update o r n (UpdateBase base))
  | RenamePullRequest o r n title => Some (pulls_update o r n (UpdateTitle title))
  | MergePullRequest o r n method t msg =>
      Some (pulls_merge o r n method (Js.truthy t) (Js.truthy msg))
  | ClosePullRequest o r n => Some (pulls_update o r n (UpdateState "closed"))
  | ReopenPullRequest o r n => Some (pulls_update o r n (UpdateState "open"))
  | SubmitPRReview o r n ev body => Some (pulls_createReview o r n ev (Js.truthy body))
  | AddPRComment o r n body => Some (issues_createComment o r n body)
  | AddPRReviewComment o r n body c p line side sl ss =>
      Some (pulls_createReviewComment
              (reviewCommentParams o r n body c p line side sl ss))
  | CommitFileEditOnPR o r n p b c sha msg =>
      Some (repos_createOrUpdateFileContents o r p msg c sha b)
  | ResolveReviewThread t _ _ _ => Some (graphql token (ResolveReviewThreadMutation t))
  | UnresolveReviewThread t _ _ _ => Some (graphql token (UnresolveReviewThreadMutation t))
  | CommitSuggestion _ _ _ _ _ _ _ _ _ => None
  | CommitMergeConflictResolution _ _ _ _ _ _ _ => None
  end.

(** The credentials a mutation found, as the token it would send (the
    client mutations send none of their own). *)
Definition credentials (w : World) (m : Mutation) : option string :=
  if usesToken m then Js.truthy (w_getGitHubToken w)
  else match w_getOctokit w with Some _ => Some EmptyString | None => None end.

(** The requests sent to the hosting API during a run, in order. *)
Definition remoteRequests (t : Trace) : list Request :=
  flat_map (fun ev => match ev with EvRemote req _ => [req] | _ => [] end) t.

(** An optional text that is either absent or not empty. *)
Definition absentOrNonEmpty (s : option string) : bool :=
  match s with
  | Some EmptyString => false
  | _ => true
  end.

Definition nonEmpty (s : string) : bool :=
  match s with
  | EmptyString => false
  | _ => true
  end.

(** The shape of a request: optional texts are left out rather than sent
    empty; a review comment has either no range or a start line other than
    its line, with a start side; a tree entry is a plain blob; a merge commit
    has a message, two parents and an author with a name and an address when
    it has one; blobs are sent as base64. *)
Definition wellFormed (req : Request) : bool :=
  match req with
  | pulls_merge _ _ _ _ title message =>
      absentOrNonEmpty title && absentOrNonEmpty message
  | pulls_createReview _ _ _ _ body => absentOrNonEmpty body
  | pulls_createReviewComment p =>
      match rc_start_line p, rc_start_side p with
      | None, None => true
      | Some s, Some _ => negb (s =? rc_line p)
      | _, _ => false
      end
  | git_createBlob _ _ _ encoding => String.eqb encoding "base64"
  | git_createTree _ _ _ tree =>
      forallb (fun e => String.eqb (te_mode e) "100644" && String.eqb (te_type e) "blob")
        tree
  | git_createCommit _ _ message _ parents author =>
      nonEmpty message && (length parents =? 2)%nat
      && match author with
         | Some a => nonEmpty (author_name a) && nonEmpty (author_email a)
         | None => true
         end
  | _ => true
  end.

(** Where the message of an error result comes from. *)
Definition errorOrigin (m : Mutation) (w : World) (evs : Trace) (msg : string) : Prop :=
  (msg = "Not authenticated" /\ evs = [])
  \/ (msg = "Not a file" /\ exists o r n p b s e t c, m = CommitSuggestion o r n p b s e t c)
  \/ (exists e, msg = Js.orElse (Some (w_getErrorMessage w e)) (fallbackMessage m))
  \/ (usesToken m = true /\ existsb graphqlErrors evs = true).

(** The [revalidatePath] calls of a run. *)
Definition isRevalidatePath (ev : Event) : bool :=
  match ev with
  | EvRevalidatePath _ _ => true
  | _ => false
  end.

(** The cache layer accepts every call. *)
Definition cacheAccepts (w : World) : Prop :=
  (forall h owner repo pullNumber,
      w_invalidatePullRequestCache w h owner repo pullNumber = Returned tt)
  /\ (forall h path type, w_revalidatePath w h path type = Returned tt).

(** The cache layer rejects every invalidation with [e]. *)
Definition cacheRejects (w : World) (e : Exn) : Prop :=
  forall h owner repo pullNumber,
    w_invalidatePullRequestCache w h owner repo pullNumber = Threw e.

(** What one run of a mutation is further shown to satisfy: where an error
    message comes from, that every request is well formed, and that a
    mutation with a single request sends it once, first, and follows it by
    cache calls only. *)
Definition Discipline (m : Mutation) (w : World) (h : Trace)
    (out : Outcome ActionResult) (evs : Trace) : Prop :=
  exists r,
    out = Returned r
    /\ (forall msg, r = Failure msg -> errorOrigin m w evs msg)
    /\ forallb wellFormed (remoteRequests evs) = true
    /\ (forall token req,
          credentials w m = Some token -> singleRequest token m = Some req ->
          exists cache,
            evs = EvRemote req (w_remote w h req) :: cache
            /\ forallb isCache cache = true).

End Requests.

(** ** A hosting API with content *)

Module Repository.

Local Open Scope list_scope.
Import Actions Exported Examples.

(** A hosting API that holds one two-line file on every path and answers
    the Git data calls with objects named after what was asked. *)
Definition repository : Trace -> Request -> Outcome Response :=
  fun _ req =>
    match req with
    | repos_getContent _ _ _ _ =>
        Returned (RContent (ContentEntry "file" (Js.join ["a"; "b"]) "abc123"))
    | repos_createOrUpdateFileContents _ _ _ _ _ _ _ =>
        Returned (RFileCommit (Some "def456"))
    | git_getRef _ _ ref => Returned (RRef ("tip-of-" ++ ref))
    | git_getCommit _ _ sha => Returned (RCommit ("tree-of-" ++ sha))
    | git_createBlob _ _ _ _ => Returned (RSha "b10b")
    | git_createTree _ _ _ _ => Returned (RSha "7ree")
    | git_createCommit _ _ _ _ _ _ => Returned (RSha "c0ffee")
    | _ => Returned RNone
    end.

(** A signed-in user known by login only. *)
Definition octocat : AuthUser :=
  {| user_name := None; user_login := Some "octocat"; user_email := Some "" |}.

(** [octocat] signed in, working against [repository]. *)
Definition developer : World := {|
  w_getOctokit := Some OctokitClient;
  w_getGitHubToken := Some "gho_token";
  w_remote := repository;
  w_getRepoBranches := fun _ _ _ => Returned None;
  w_getAuthenticatedUser := fun _ => Returned (Some octocat);
  w_invalidatePullRequestCache := fun _ _ _ _ => Returned tt;
  w_revalidatePath := fun _ _ _ => Returned tt;
  w_getErrorMessage := exn_message;
  w_now := 1700000000
|}.

(** Two files resolved by hand. *)
Definition resolved : list ResolvedFile :=
  [ {| file_path := "a.ts"; file_content := "let a = 1" |};
    {| file_path := "b.ts"; file_content := "let b = 2" |} ].

End Repository.

(** ** The README cache

    Source: the cache module that follows the actions in the same file
    ([readmeKey], [getCachedReadmeHtml], [setCachedReadmeHtml],
    [deleteCachedReadmeHtml]). *)

Module ReadmeCache.

Import Effects.

(** The Redis client of [./redis], as far as the cache uses it: three
    commands that act on the state of the client and may reject.  What [set]
    and [del] resolve to is dropped by the callers. *)
Class RedisClient (S : Type) := {
  redis_get : string -> S -> Outcome (option string) * S;
  redis_set : string -> string -> Z -> S -> Outcome unit * S;
  redis_del : string -> S -> Outcome unit * S
}.

Definition readmeKey (owner repo : string) : string :=
  "readme_html:" ++ Js.toLowerCase owner ++ "/" ++ Js.toLowerCase repo.

Section Client.

Context {S : Type} `{RedisClient S}.

Definition getCachedReadmeHtml (owner repo : string) : S -> Outcome (option string) * S :=
  redis_get (readmeKey owner repo).

(** [{ ex: 60 * 60 }]: the entry expires after an hour. *)
Definition setCachedReadmeHtml (owner repo html : string) : S -> Outcome unit * S :=
  redis_set (readmeKey owner repo) html (60 * 60).

Definition deleteCachedReadmeHtml (owner repo : string) : S -> Outcome unit * S :=
  redis_del (readmeKey owner repo).

End Client.

(** A name without the separator of the key. *)
Definition noSlash (s : string) : bool :=
  forallb (fun c => negb (Ascii.eqb c "/")) (list_ascii_of_string s).

(** A client that keeps its entries in a finite map and never rejects;
    entries do not expire while it is observed. *)
#[export] Instance memory : RedisClient (gmap string string) := {|
  redis_get := fun k s => (Returned (s !! k), s);
  redis_set := fun k v _ s => (Returned tt, <[k := v]> s);
  redis_del := fun k s => (Returned tt, delete k s)
|}.

End ReadmeCache.

(** * Properties *)

Local Open Scope list_scope.

(** ** Lines and splicing *)

Module SuggestionFacts.

Lemma slice_prefix {A : Type} (l : list A) (n : Z) :
  0 <= n <= Z.of_nat (length l) -> Js.slice l 0 n = take (Z.to_nat n) l.
Proof.
  intros Hn. unfold Js.slice, Js.relIndex.
  destruct (Z.ltb_spec 0 0); [lia|].
  destruct (Z.ltb_spec n 0); [lia|].
  rewrite !Z.min_l by lia.
  rewrite Z.sub_0_r. reflexivity.
Qed.

Lemma sliceFrom_suffix {A : Type} (l : list A) (n : Z) :
  0 <= n <= Z.of_nat (length l) -> Js.sliceFrom l n = drop (Z.to_nat n) l.
Proof.
  intros Hn. unfold Js.sliceFrom, Js.slice, Js.relIndex.
  destruct (Z.ltb_spec n 0); [lia|].
  destruct (Z.ltb_spec (Z.of_nat (length l)) 0); [lia|].
  rewrite !Z.min_l by lia.
  apply take_ge. rewrite length_drop. lia.
Qed.

Lemma split_nonempty (s : string) : Js.split s <> [].
Proof.
  destruct s as [|c r]; simpl; [discriminate|].
  destruct (Ascii.eqb c Js.newline); [discriminate|].
  destruct (Js.split r); discriminate.
Qed.

Lemma split_lines_noNewline (s : string) : Forall Js.noNewline (Js.split s).
Proof.
  induction s as [|c r IH]; simpl.
  - constructor; [|constructor]. intros c []. 
  - destruct (Ascii.eqb_spec c Js.newline) as [->|Hc].
    + constructor; [intros c []|exact IH].
    + destruct (Js.split r) as [|l ls].
      * constructor; [|constructor]. intros d [<-|[]]. exact Hc.
      * inversion IH as [|? ? Hl Hls]; subst. constructor; [|exact Hls].
        intros d [<-|Hd]; [exact Hc|]. apply Hl, Hd.
Qed.

Lemma split_one_line (x : string) : Js.noNewline x -> Js.split x = [x].
Proof.
  induction x as [|c r IH]; intros Hx; simpl; [reflexivity|].
  destruct (Ascii.eqb_spec c Js.newline) as [->|Hc].
  - exfalso. apply (Hx Js.newline); [left|]; reflexivity.
  - rewrite IH; [reflexivity|]. intros d Hd. apply Hx. right. exact Hd.
Qed.

Lemma split_line_then (x r : string) :
  Js.noNewline x -> Js.split (x ++ String Js.newline r)%string = x :: Js.split r.
Proof.
  induction x as [|c x IH]; intros Hx; simpl.
  - reflexivity.
  - destruct (Ascii.eqb_spec c Js.newline) as [->|Hc].
    + exfalso. apply (Hx Js.newline); [left|]; reflexivity.
    + rewrite IH; [reflexivity|]. intros d Hd. apply Hx. right. exact Hd.
Qed.

Lemma split_join (ls : list string) :
  ls <> [] -> Forall Js.noNewline ls -> Js.split (Js.join ls) = ls.
Proof.
  induction ls as [|x rest IH]; intros Hne Hall; [congruence|].
  inversion Hall as [|? ? Hx Hrest]; subst.
  destruct rest as [|y rest'].
  - simpl. apply split_one_line, Hx.
  - change (Js.join (x :: y :: rest')) with (x ++ String Js.newline (Js.join (y :: rest')))%string.
    rewrite split_line_then by exact Hx.
    rewrite IH; [reflexivity|discriminate|exact Hrest].
Qed.

Lemma suggestionLines_noNewline (s : string) :
  Forall Js.noNewline (Suggestion.suggestionLines s).
Proof.
  unfold Suggestion.suggestionLines.
  destruct (0 <? String.length s)%nat; [apply split_lines_noNewline|constructor].
Qed.

End SuggestionFacts.

(** ** Case-insensitive comparison *)

Module CaseFacts.

Import CaseInsensitive.

Lemma allChars_complete (c : ascii) : In c allChars.
Proof.
  unfold allChars. rewrite <- (ascii_nat_embedding c).
  apply in_map, in_seq. pose proof (nat_ascii_bounded c). lia.
Qed.

Lemma lowerChar_table :
  forallb (fun c => forallb (fun d =>
    Bool.eqb (Ascii.eqb (Js.lowerChar c) (Js.lowerChar d)) (sameLetter c d))
    allChars) allChars = true.
Proof. vm_compute. reflexivity. Qed.

Lemma lowerChar_sameLetter (c d : ascii) :
  Js.lowerChar c = Js.lowerChar d <-> sameLetter c d = true.
Proof.
  pose proof lowerChar_table as T.
  rewrite forallb_forall in T. specialize (T c (allChars_complete c)).
  rewrite forallb_forall in T. specialize (T d (allChars_complete d)).
  apply Bool.eqb_prop in T. rewrite <- T.
  symmetry. apply Ascii.eqb_eq.
Qed.

Lemma toLowerCase_equalIgnoringCase (s t : string) :
  Js.strictEq (Js.toLowerCase s) (Js.toLowerCase t) = equalIgnoringCase s t.
Proof.
  unfold Js.strictEq. revert t.
  induction s as [|c s IH]; intros [|d t]; simpl; try reflexivity.
  rewrite <- IH.
  destruct (sameLetter c d) eqn:E.
  - apply lowerChar_sameLetter in E. rewrite E, Ascii.eqb_refl. reflexivity.
  - destruct (Ascii.eqb_spec (Js.lowerChar c) (Js.lowerChar d)) as [H|H]; [|reflexivity].
    apply lowerChar_sameLetter in H. congruence.
Qed.

End CaseFacts.

(** ** The scope table and the cache step *)

Module ScopeFacts.
Import Actions Exported.

Lemma scopesOf_statedTable (action : string) : scopesOf action = statedTable action.
Proof.
  unfold scopesOf, statedTable, PR_ACTION_SCOPES.
  rewrite !list_to_map_cons, list_to_map_nil.
  repeat (rewrite lookup_insert; case_decide;
          [subst action; vm_compute; reflexivity| ]).
  rewrite lookup_empty.
  rewrite !decide_False; [reflexivity| |]; rewrite !elem_of_cons, elem_of_nil; intuition congruence.
Qed.

Lemma issued_statedTable owner repo pullNumber action :
  issued owner repo pullNumber (scopesOf action)
  = cacheStep owner repo pullNumber (statedTable action).
Proof.
  rewrite scopesOf_statedTable. unfold statedTable.
  repeat case_decide; reflexivity.
Qed.

Lemma revalidate_facts owner repo pullNumber action w h :
  exists out evs,
    revalidateAfterPRMutation owner repo pullNumber action w h = (out, evs)
    /\ forallb isCache evs = true
    /\ (exists rest, evs = EvInvalidatePullRequestCache owner repo pullNumber :: rest)
    /\ (forall v, out = Returned v ->
        evs = cacheStep owner repo pullNumber (statedTable action)).
Proof.
  rewrite <- issued_statedTable.
  unfold revalidateAfterPRMutation, issued, bind, when, invalidatePullRequestCache,
    revalidatePath, ret.
  destruct (w_invalidatePullRequestCache w h owner repo pullNumber) as [[]|e];
    [|eexists _, _; repeat split; eauto; discriminate].
  destruct (includes (scopesOf action) ScopeDetail);
    destruct (includes (scopesOf action) ScopeList);
    destruct (includes (scopesOf action) ScopeLayout); cbn [revalidation app];
    repeat match goal with
           | |- context [w_revalidatePath ?w ?h ?p ?t] =>
               destruct (w_revalidatePath w h p t) as [[]|?]
           end;
    eexists _, _; (split; [reflexivity|]); repeat split; eauto; discriminate.
Qed.

End ScopeFacts.

(** ** Runs of the mutations *)

Module RunFacts.
Import Actions Exported ScopeFacts.

Lemma blobs_facts owner repo files w h :
  exists out evs,
    promiseAll (map (createBlobEntry owner repo) files) w h = (out, evs)
    /\ existsb isCache evs = false
    /\ existsb graphqlErrors evs = false
    /\ (forall v, out = Returned v -> existsb threw evs = false).
Proof.
  revert h. induction files as [|f files IH]; intros h.
  - eexists _, _. cbn. repeat split; eauto.
  - cbn [map promiseAll]. unfold bind at 1. unfold both.
    unfold createBlobEntry at 1. unfold bind, callRemote, shaOf, ret, throw.
    destruct (w_remote w h _) as [resp|e] eqn:E1.
    + destruct resp;
        match goal with
        | |- context [promiseAll ?ms w ?h'] =>
            destruct (IH h') as (out & evs & -> & Hc & Hg & Ht)
        end;
        destruct out; eexists _, _; (split; [reflexivity|]);
        cbn; rewrite ?existsb_app, ?app_nil_r; cbn; rewrite ?Hc, ?Hg;
        repeat split; intros; try discriminate; rewrite ?orb_false_r; eauto.
    + match goal with
      | |- context [promiseAll ?ms w ?h'] =>
          destruct (IH h') as (out & evs & -> & Hc & Hg & Ht)
      end.
      destruct out; eexists _, _; (split; [reflexivity|]);
        cbn; rewrite ?existsb_app, ?app_nil_r; cbn; rewrite ?Hc, ?Hg;
        repeat split; intros; try discriminate; rewrite ?orb_false_r; eauto.
Qed.

Lemma filter_all_cache evs : forallb isCache evs = true -> List.filter isCache evs = evs.
Proof.
  induction evs as [|ev evs IH]; cbn; [reflexivity|].
  destruct (isCache ev); cbn; [|discriminate]. intros H. rewrite IH by exact H. reflexivity.
Qed.

Lemma filter_no_cache evs : existsb isCache evs = false -> List.filter isCache evs = [].
Proof.
  induction evs as [|ev evs IH]; cbn; [reflexivity|].
  destruct (isCache ev); cbn; [discriminate|]. exact IH.
Qed.

Lemma all_cache_not_threw evs : forallb isCache evs = true -> existsb threw evs = false.
Proof.
  induction evs as [|ev evs IH]; cbn; [reflexivity|].
  destruct ev; cbn; try discriminate; exact IH.
Qed.

Lemma all_cache_no_errors evs :
  forallb isCache evs = true -> existsb graphqlErrors evs = false.
Proof.
  induction evs as [|ev evs IH]; cbn; [reflexivity|].
  destruct ev; cbn; try discriminate; exact IH.
Qed.

Lemma cacheLast_all_cache evs : forallb isCache evs = true -> cacheLast evs = true.
Proof.
  destruct evs as [|ev evs]; cbn; [reflexivity|].
  destruct (isCache ev); cbn; [auto|discriminate].
Qed.

Lemma cacheLast_app pre post :
  existsb isCache pre = false -> cacheLast (pre ++ post) = cacheLast post.
Proof.
  induction pre as [|ev pre IH]; cbn; [reflexivity|].
  destruct (isCache ev); cbn; [discriminate|]. exact IH.
Qed.

Lemma cacheLast_no_cache evs : existsb isCache evs = false -> cacheLast evs = true.
Proof.
  induction evs as [|ev evs IH]; cbn; [reflexivity|].
  destruct (isCache ev); cbn; [discriminate|]. exact IH.
Qed.

Ltac unfold_actions :=
  unfold errorResult, contentOf, contentShaOf, objectShaOf, treeShaOf, shaOf, jsonOf,
    okOf;
  unfold getOctokit, getGitHubToken, callRemote, getAuthenticatedUser, getErrorMessage,
    currentTime;
  unfold bind, tryCatch, both, ret, throw;
  cbn [app fst snd].

Ltac run_step :=
  match goal with
  | |- context [w_getOctokit ?w] => destruct (w_getOctokit w) eqn:?
  | |- context [Js.truthy (w_getGitHubToken ?w)] =>
      destruct (Js.truthy (w_getGitHubToken w)) eqn:?
  | |- context [revalidateAfterPRMutation ?o ?r ?n ?a ?w ?h] =>
      let out := fresh "out" in
      let evs := fresh "evs" in
      let Hall := fresh "Hall" in
      let Hhead := fresh "Hhead" in
      let Hok := fresh "Hok" in
      destruct (revalidate_facts o r n a w h) as (out & evs & -> & Hall & Hhead & Hok);
      destruct out as [[]|?]
  | |- context [promiseAll (map (createBlobEntry ?o ?r) ?fs) ?w ?h] =>
      let out := fresh "out" in
      let evs := fresh "evs" in
      let Hc := fresh "Hc" in
      let Hg := fresh "Hg" in
      let Ht := fresh "Ht" in
      destruct (blobs_facts o r fs w h) as (out & evs & -> & Hc & Hg & Ht);
      destruct out
  | |- context [w_remote ?w ?h ?r] => destruct (w_remote w h r) eqn:?
  | |- context [w_getAuthenticatedUser ?w ?h] => destruct (w_getAuthenticatedUser w h) eqn:?
  | |- context [match ?x with _ => _ end] => is_var x; destruct x
  | |- context [if negb (Js.strictEq ?a ?b) then _ else _] => destruct (Js.strictEq a b)
  | |- context [firstError ?j] => destruct (firstError j) eqn:?
  end; cbn [app fst snd negb].

Ltac finish_facts :=
  eexists; split; [reflexivity|];
  unfold cacheEvents;
  repeat match goal with
         | H : forallb isCache ?evs = true |- _ =>
             lazymatch goal with
             | _ : List.filter isCache evs = evs |- _ => fail
             | _ => pose proof (filter_all_cache evs H);
                    pose proof (all_cache_not_threw evs H);
                    pose proof (all_cache_no_errors evs H);
                    pose proof (cacheLast_all_cache evs H)
             end
         | H : existsb isCache ?evs = false |- _ =>
             lazymatch goal with
             | _ : List.filter isCache evs = [] |- _ => fail
             | _ => pose proof (filter_no_cache evs H);
                    pose proof (cacheLast_no_cache evs H)
             end
         end.

Ltac use_trace_facts :=
  repeat match goal with
         | H : forall v, Returned ?a = Returned v -> _ |- _ => specialize (H _ eq_refl)
         end;
  repeat (progress
            (rewrite ?app_nil_r, ?existsb_app, ?List.filter_app;
             cbn [existsb threw graphqlErrors isCache List.filter cacheLast forallb
                  orb andb isSuccess app];
             repeat match goal with
                    | H : List.filter isCache ?e = _ |- context [List.filter isCache ?e] =>
                        rewrite H
                    | H : existsb ?p ?e = _ |- context [existsb ?p ?e] => rewrite H
                    | H : cacheLast ?e = _ |- context [cacheLast ?e] => rewrite H
                    | H : forallb ?p ?e = _ |- context [forallb ?p ?e] => rewrite H
                    | H : firstError ?j = _ |- context [firstError ?j] => rewrite H
                    | H : existsb isCache ?e = false |- context [cacheLast (?e ++ _)] =>
                        rewrite (cacheLast_app e _ H)
                    end)).

Ltac solve_facts :=
  finish_facts; use_trace_facts;
  repeat split; intros; try discriminate; subst; eauto.

Lemma run_facts (m : Mutation) (w : World) (h : Trace) :
  exists out evs, run m w h = (out, evs) /\ Facts m w out evs.
Proof.
  destruct m; cbn [run]; unfold Facts; cbn [pullOf statedScopes unauthenticated usesToken];
    unfold updatePRBaseBranch, renamePullRequest, mergePullRequest, closePullRequest,
      reopenPullRequest, submitPRReview, addPRComment, addPRReviewComment,
      commitSuggestion, commitFileEditOnPR, resolveReviewThread, unresolveReviewThread,
      commitMergeConflictResolution;
    unfold_actions; repeat run_step;
    eexists _, _; (split; [reflexivity|]); solve_facts.
Qed.

End RunFacts.

(** ** The two fetch operations *)

Module FetchFacts.
Import Actions Exported ScopeFacts RunFacts.

Lemma fetchBranchNames_facts owner repo w h :
  exists names evs,
    fetchBranchNames owner repo w h = (Returned names, evs)
    /\ (existsb threw evs = true -> names = [])
    /\ (forall branches,
          w_getRepoBranches w h owner repo = Returned branches ->
          names = map branch_name (Dossier.orEmpty branches)).
Proof.
  unfold fetchBranchNames, tryCatch, bind, getRepoBranches, ret.
  destruct (w_getRepoBranches w h owner repo) as [branches|e];
    eexists _, _; (split; [reflexivity|]); cbn; split;
    intros; try discriminate; try reflexivity.
  match goal with H : Returned _ = Returned _ |- _ => inversion H; subst end.
  destruct branches0; reflexivity.
Qed.

Ltac close_fetch :=
  eexists _, _; (split; [reflexivity|]); cbn; repeat split; intros;
  repeat match goal with
         | H : Some _ = Some _ |- _ => inversion H; clear H; subst
         end;
  try discriminate; try congruence; try reflexivity.

Lemma fetchAuthorDossier_facts P owner repo authorLogin w h :
  exists d evs,
    Dossier.fetchAuthorDossier P owner repo authorLogin w h = (Returned d, evs)
    /\ (Js.truthy (w_getGitHubToken w) = None -> d = None /\ evs = [])
    /\ (existsb threw evs || existsb notOk evs = true -> d = None)
    /\ existsb isCache evs = false
    /\ (forall token json data u,
          Js.truthy (w_getGitHubToken w) = Some token ->
          w_remote w h (graphql token
                          (AuthorDossierQuery (owner ++ "/" ++ repo)%string authorLogin))
          = Returned (RFetch true (Returned json)) ->
          json_data json = Some data -> d_user data = Some u ->
          d = Some (Dossier.dossier owner u data
                      (Scorer.computeContributorScore P (w_now w)
                         (Dossier.scorerCall owner authorLogin u data)))).
Proof.
  unfold Dossier.fetchAuthorDossier, Dossier.fetchAuthorDossierGraphQL, Dossier.score,
    consoleError.
  unfold_actions.
  destruct (Js.truthy (w_getGitHubToken w)) as [token|] eqn:Etoken; cbn [app];
    [|close_fetch].
  rewrite app_nil_r.
  destruct (w_remote w h _) as [resp|e] eqn:Eremote; cbn [app]; [|close_fetch].
  destruct resp as [| | | | | |ok [json|e]]; cbn [app negb]; try close_fetch.
  - destruct ok; cbn [negb app]; [|close_fetch].
    destruct (json_data json) as [data|] eqn:Edata; cbn [app];
      [destruct (d_user data) as [u|] eqn:Euser; cbn [app]|]; close_fetch.
  - destruct ok; cbn [negb app]; close_fetch.
Qed.

End FetchFacts.

(** ** Lists filled with one value *)

Module DossierFacts.

Lemma lookup_repeat {A : Type} (x : A) (n i : nat) :
  (i < n)%nat -> repeat x n !! i = Some x.
Proof.
  revert i. induction n as [|n IH]; intros [|i] Hi; simpl; try lia; [reflexivity|].
  apply IH. lia.
Qed.

End DossierFacts.

(** ** Properties of the specification *)

Import Actions Exported Examples.
Import SuggestionFacts CaseFacts ScopeFacts RunFacts FetchFacts DossierFacts.

(** C1.  No exported operation lets an exception reach its caller, however
    the hosting API behaves: each of the thirteen mutations, [fetchBranchNames]
    and [fetchAuthorDossier] returns a value in every world and after every
    history.  When a call to the hosting API ended in a thrown failure, or (for
    the mutations) a GraphQL response carried an error list, the mutation
    returns [{ error }] with a string; [fetchBranchNames] returns the empty
    list when its call threw; [fetchAuthorDossier] returns [null] when its
    call threw or the HTTP status was not a success. *)
Theorem exported_operations_never_throw :
  forall (P : Scorer.ScoringParams) (w : World) (h : Trace),
    (forall m : Mutation,
        exists r evs,
          run m w h = (Returned r, evs)
          /\ (existsb threw evs || existsb graphqlErrors evs = true ->
              exists msg, r = Failure msg))
    /\ (forall owner repo : string,
          exists names evs,
            fetchBranchNames owner repo w h = (Returned names, evs)
            /\ (existsb threw evs = true -> names = []))
    /\ (forall owner repo authorLogin : string,
          exists d evs,
            Dossier.fetchAuthorDossier P owner repo authorLogin w h = (Returned d, evs)
            /\ (existsb threw evs || existsb notOk evs = true -> d = None)).
Proof.
  intros P w h. split; [|split].
  - intros m. destruct (run_facts m w h) as (out & evs & Hrun & r & -> & _ & Hfail & _).
    exists r, evs. split; [exact Hrun|]. intros H. apply Hfail, H.
  - intros owner repo.
    destruct (fetchBranchNames_facts owner repo w h) as (names & evs & Hrun & Hfail & _).
    exists names, evs. split; assumption.
  - intros owner repo authorLogin.
    destruct (fetchAuthorDossier_facts P owner repo authorLogin w h)
      as (d & evs & Hrun & _ & Hfail & _).
    exists d, evs. split; assumption.
Qed.

(** While the hosting API is down, a merge gives an error result, the branch
    list is empty and the dossier is [null]. *)
Lemma exported_operations_never_throw_witness :
  (exists msg,
      fst (run (MergePullRequest "acme" "hub" 42 squash None None) offline [])
      = Returned (Failure msg))
  /\ fst (fetchBranchNames "acme" "hub" offline []) = Returned []
  /\ fst (Dossier.fetchAuthorDossier Scorer.exampleParams "acme" "hub" "octocat" offline [])
     = Returned None.
Proof.
  destruct (exported_operations_never_throw Scorer.exampleParams offline [])
    as (Hm & Hb & Hd).
  split; [|split].
  - destruct (Hm (MergePullRequest "acme" "hub" 42 squash None None))
      as (r & evs & Hrun & Hfail).
    rewrite Hrun. cbn [fst].
    assert (Hevs : evs = snd (run (MergePullRequest "acme" "hub" 42 squash None None)
                                offline []))
      by (rewrite Hrun; reflexivity).
    destruct Hfail as [msg ->]; [rewrite Hevs; vm_compute; reflexivity|].
    exists msg. reflexivity.
  - destruct (Hb "acme" "hub") as (names & evs & Hrun & Hfail).
    rewrite Hrun. cbn [fst].
    assert (Hevs : evs = snd (fetchBranchNames "acme" "hub" offline []))
      by (rewrite Hrun; reflexivity).
    rewrite Hfail; [reflexivity|rewrite Hevs; vm_compute; reflexivity].
  - destruct (Hd "acme" "hub" "octocat") as (d & evs & Hrun & Hfail).
    rewrite Hrun. cbn [fst].
    assert (Hevs : evs = snd (Dossier.fetchAuthorDossier Scorer.exampleParams "acme" "hub"
                                "octocat" offline []))
      by (rewrite Hrun; reflexivity).
    rewrite Hfail; [reflexivity|rewrite Hevs; vm_compute; reflexivity].
Defined.



(** C3.  Cache invalidation and path revalidation happen only after the
    remote calls have succeeded.  On each error path of a mutation (no
    credentials, a thrown remote error, a GraphQL error list) the operation
    returns an error result and its run holds no cache event; conversely a
    run that holds a cache event had credentials, no thrown call and no
    GraphQL error list; and no remote call follows a cache event. *)
Theorem revalidation_only_after_success :
  forall (m : Mutation) (w : World) (h : Trace) (out : Outcome ActionResult) (evs : Trace),
    run m w h = (out, evs) ->
    (unauthenticated w m = true
     \/ existsb threw evs = true
     \/ existsb graphqlErrors evs = true ->
     (exists msg, out = Returned (Failure msg)) /\ cacheEvents evs = [])
    /\ (cacheEvents evs <> [] ->
        unauthenticated w m = false
        /\ existsb threw evs = false
        /\ existsb graphqlErrors evs = false)
    /\ cacheLast evs = true.
Proof.
  intros m w h out evs Hrun.
  destruct (run_facts m w h) as (out0 & evs0 & Hrun0 & r & -> & Hauth & Hfail & _ & Hlast).
  rewrite Hrun in Hrun0. inversion Hrun0; subst out evs0. clear Hrun0.
  assert (Herr : unauthenticated w m = true
                 \/ existsb threw evs = true
                 \/ existsb graphqlErrors evs = true ->
                 (exists msg, r = Failure msg) /\ cacheEvents evs = []).
  { intros [Hu|[Ht|Hg]].
    - destruct (Hauth Hu) as [-> ->]. split; [eauto|reflexivity].
    - apply Hfail. rewrite Ht. reflexivity.
    - apply Hfail. rewrite Hg. apply orb_true_r. }
  split; [|split; [|exact Hlast]].
  - intros H. destruct (Herr H) as [[msg ->] Hnone]. split; [eauto|exact Hnone].
  - intros Hsome.
    destruct (unauthenticated w m) eqn:Eu; [exfalso; apply Hsome, Herr; auto|].
    destruct (existsb threw evs) eqn:Et; [exfalso; apply Hsome, Herr; auto|].
    destruct (existsb graphqlErrors evs) eqn:Eg; [exfalso; apply Hsome, Herr; auto|].
    auto.
Qed.

(** Resolving a thread against an endpoint that answers with an error list
    gives an error result and touches no cache. *)
Lemma revalidation_only_after_success_witness :
  (exists msg,
      fst (run (ResolveReviewThread "PRRT_1" "acme" "hub" 42) (signedIn refusing 0) [])
      = Returned (Failure msg))
  /\ cacheEvents (snd (run (ResolveReviewThread "PRRT_1" "acme" "hub" 42)
                         (signedIn refusing 0) [])) = [].
Proof.
  apply (revalidation_only_after_success
           (ResolveReviewThread "PRRT_1" "acme" "hub" 42) (signedIn refusing 0) []).
  - apply surjective_pairing.
  - right. right. vm_compute. reflexivity.
Defined.




(** C5.  Whatever the snapshot holds, the score lies in the documented range
    from 0 to MAX: the sum of the sub-signals and bonuses is clamped last.
    This holds for every choice of the scoring constants with a range that is
    not empty, and for the score as the dossier obtains it. *)
Theorem score_within_documented_range :
  forall (P : Scorer.ScoringParams) (now : Z) (s : Scorer.ContributorSnapshot),
    0 <= Scorer.MAX P ->
    0 <= Scorer.computeScore P now s <= Scorer.MAX P
    /\ (forall (clock : Z) (given : option Z),
          0 <= Scorer.computeContributorScore P clock
                 {| Scorer.arg_snapshot := s; Scorer.arg_now := given |}
          <= Scorer.MAX P).
Proof.
  intros P now s HMAX.
  assert (Hrange : forall t, 0 <= Scorer.computeScore P t s <= Scorer.MAX P).
  { intros t. unfold Scorer.computeScore, Scorer.clamp. lia. }
  split; [apply Hrange|].
  intros clock given. unfold Scorer.computeContributorScore. apply Hrange.
Qed.

(** A snapshot with 10^9 followers, 10^9 public repositories and 10^9 stars
    scores between 0 and 100 with the example constants. *)
Lemma score_within_documented_range_witness :
  0 <= Scorer.computeScore Scorer.exampleParams 20000
         {| Scorer.followers := 1000000000; Scorer.publicRepos := 1000000000;
            Scorer.accountCreated := "";
            Scorer.commitsInRepo := 1000000000; Scorer.prsInRepo := [];
            Scorer.reviewsInRepo := 1000000000;
            Scorer.isContributor := true; Scorer.contributionCount := 1000000000;
            Scorer.isOrgMember := true; Scorer.isOwner := true;
            Scorer.topRepoStars := [1000000000; 1000000000] |}
  <= 100.
Proof.
  assert (HMAX : 0 <= Scorer.MAX Scorer.exampleParams) by (simpl; lia).
  exact (proj1 (score_within_documented_range Scorer.exampleParams 20000 _ HMAX)).
Defined.

(** C6.  In the snapshot the dossier assembles, [contributionCount] is the
    merged-PR count plus the review count the queries returned (an absent
    count read as 0), the dossier returns the same number, and
    [isContributor] is true exactly when that sum is greater than zero, that
    is when there is at least one merged pull request or one review. *)
Theorem dossier_contribution_count :
  forall (owner authorLogin : string) (u : UserNode) (data : GqlData) (score : Z),
    let s := Dossier.snapshot owner authorLogin u data in
    let merged := Dossier.orZero (d_mergedPrs data) in
    let reviews := Dossier.orZero (d_reviews data) in
    Scorer.contributionCount s = Z.of_N merged + Z.of_N reviews
    /\ Dossier.dossier_contributionCount (Dossier.dossier owner u data score)
       = (merged + reviews)%N
    /\ (Scorer.isContributor s = true <-> 0 < Z.of_N merged + Z.of_N reviews)
    /\ (Scorer.isContributor s = true <-> (0 < merged)%N \/ (0 < reviews)%N).
Proof.
  intros owner authorLogin u data score s merged reviews.
  cbn [s Dossier.snapshot Scorer.contributionCount Scorer.isContributor
       Dossier.dossier Dossier.dossier_contributionCount].
  unfold Dossier.isContributor, Dossier.contributionCount, Dossier.mergedPrs,
    Dossier.reviewCount. fold merged reviews.
  rewrite N.ltb_lt. repeat split; try lia.
Qed.

(** Two merged pull requests and three reviews count as five contributions. *)
Lemma dossier_contribution_count_witness :
  Scorer.contributionCount exampleSnapshot = 5
  /\ Scorer.isContributor exampleSnapshot = true.
Proof.
  destruct (dossier_contribution_count "github" "octocat" exampleUser exampleData 0)
    as (Hcount & _ & Hflag & _).
  split; [unfold exampleSnapshot; rewrite Hcount; reflexivity|].
  apply Hflag. reflexivity.
Defined.

(** C7.  In the snapshot the dossier assembles, [isOwner] is the
    case-insensitive comparison of the author's login with the repository
    owner's login, and [isOrgMember] is true exactly when some organization of
    the user's organization list has a login equal to the owner's login up to
    case; the dossier returns that same flag. *)
Theorem dossier_owner_and_org_flags :
  forall (owner authorLogin : string) (u : UserNode) (data : GqlData) (score : Z),
    let s := Dossier.snapshot owner authorLogin u data in
    (Scorer.isOwner s = true <->
     CaseInsensitive.equalIgnoringCase authorLogin owner = true)
    /\ (Scorer.isOrgMember s = true <->
        exists o login, In o (Dossier.orEmpty (u_organizations u))
                        /\ org_login o = Some login
                        /\ CaseInsensitive.equalIgnoringCase login owner = true)
    /\ Dossier.dossier_isOrgMember (Dossier.dossier owner u data score)
       = Scorer.isOrgMember s.
Proof.
  intros owner authorLogin u data score s.
  cbn [s Dossier.snapshot Scorer.isOwner Scorer.isOrgMember Dossier.dossier
       Dossier.dossier_isOrgMember].
  split; [rewrite toLowerCase_equalIgnoringCase; reflexivity|]. split; [|reflexivity].
  unfold Dossier.isOrgMember, Dossier.orgs. rewrite existsb_exists. split.
  - intros [org [Hin Hmatch]]. apply in_map_iff in Hin as [o [<- Ho]]. cbn in Hmatch.
    destruct (org_login o) as [login|] eqn:El; [|discriminate].
    exists o, login. rewrite <- toLowerCase_equalIgnoringCase. auto.
  - intros [o [login [Ho [El Heq]]]].
    exists {| Dossier.org_login_ := org_login o; Dossier.org_avatar_url := org_avatarUrl o |}.
    split; [apply in_map_iff; exists o; auto|].
    cbn. rewrite El, toLowerCase_equalIgnoringCase. exact Heq.
Qed.

(** A member of the organization "GitHub" is an org member of a repository
    owned by "github", and "GitHub" itself would be its owner. *)
Lemma dossier_owner_and_org_flags_witness :
  Scorer.isOrgMember exampleSnapshot = true
  /\ Scorer.isOwner (Dossier.snapshot "github" "GitHub" exampleUser exampleData) = true.
Proof.
  destruct (dossier_owner_and_org_flags "github" "octocat" exampleUser exampleData 0)
    as (_ & Horg & _).
  destruct (dossier_owner_and_org_flags "github" "GitHub" exampleUser exampleData 0)
    as (Hown & _ & _).
  split.
  - apply Horg.
    exists {| org_login := Some "GitHub"; org_avatarUrl := None |}, "GitHub"%string.
    split; [left; reflexivity|]. split; reflexivity.
  - apply Hown. reflexivity.
Defined.

(** C8.  Without credentials nothing is attempted.  When [getOctokit] gives
    no client, every mutation that uses the client returns
    [{ error: "Not authenticated" }] with an empty trace: no remote call, no
    cache invalidation, no path revalidation.  When [getGitHubToken] gives no
    token (null, or the empty string, which the test [!token] treats alike),
    the two thread mutations do the same and [fetchAuthorDossier] returns
    [null] with an empty trace. *)
Theorem unauthenticated_operations_stop_early :
  forall (P : Scorer.ScoringParams) (w : World) (h : Trace),
    (forall m : Mutation,
        usesToken m = false -> w_getOctokit w = None ->
        run m w h = (Returned (Failure "Not authenticated"), []))
    /\ (forall m : Mutation,
          usesToken m = true -> Js.truthy (w_getGitHubToken w) = None ->
          run m w h = (Returned (Failure "Not authenticated"), []))
    /\ (Js.truthy (w_getGitHubToken w) = None ->
        forall owner repo authorLogin : string,
          Dossier.fetchAuthorDossier P owner repo authorLogin w h = (Returned None, []))
    /\ (w_getGitHubToken w = None -> Js.truthy (w_getGitHubToken w) = None).
Proof.
  intros P w h.
  assert (Hrun : forall m, unauthenticated w m = true ->
                           run m w h = (Returned (Failure "Not authenticated"), [])).
  { intros m Hu.
    destruct (run_facts m w h) as (out & evs & Hrun & r & -> & Hauth & _).
    destruct (Hauth Hu) as [-> ->]. exact Hrun. }
  split; [|split; [|split]].
  - intros m Hkind Hnone. apply Hrun. unfold unauthenticated. rewrite Hkind, Hnone.
    reflexivity.
  - intros m Hkind Hnone. apply Hrun. unfold unauthenticated. rewrite Hkind, Hnone.
    reflexivity.
  - intros Hnone owner repo authorLogin.
    destruct (fetchAuthorDossier_facts P owner repo authorLogin w h)
      as (d & evs & Hfetch & Hauth & _).
    destruct (Hauth Hnone) as [-> ->]. exact Hfetch.
  - intros ->. reflexivity.
Qed.

(** With nobody signed in, closing a pull request and unresolving a thread
    both answer "Not authenticated" and the dossier is [null]; nothing is
    called. *)
Lemma unauthenticated_operations_stop_early_witness :
  run (ClosePullRequest "acme" "hub" 42) signedOut []
  = (Returned (Failure "Not authenticated"), [])
  /\ run (UnresolveReviewThread "PRRT_1" "acme" "hub" 42) signedOut []
     = (Returned (Failure "Not authenticated"), [])
  /\ Dossier.fetchAuthorDossier Scorer.exampleParams "acme" "hub" "octocat" signedOut []
     = (Returned None, []).
Proof.
  destruct (unauthenticated_operations_stop_early Scorer.exampleParams signedOut [])
    as (Hclient & Htoken & Hdossier & _).
  split; [|split].
  - apply Hclient; reflexivity.
  - apply Htoken; reflexivity.
  - apply Hdossier. reflexivity.
Defined.

(** C9.  [commitSuggestion] builds the new content by splicing lines.  For
    a file split on newline into lines numbered from 1, and
    1 <= startLine <= endLine <= number of lines: the lines before [startLine]
    and the lines after [endLine] are kept as they are, the lines
    [startLine..endLine] are replaced by the lines of the suggestion, an empty
    suggestion replaces them by nothing, and the number of resulting lines is
    the original number minus (endLine - startLine + 1) plus the number of
    suggestion lines.  The new content is these lines joined by newlines, and
    splitting it again gives them back unless no line is left. *)
Theorem commitSuggestion_splices_lines :
  forall (content suggestion : string) (startLine endLine : Z),
    1 <= startLine -> startLine <= endLine ->
    endLine <= Z.of_nat (length (Js.split content)) ->
    let lines := Js.split content in
    let inserted := Suggestion.suggestionLines suggestion in
    let new := Suggestion.splicedLines lines startLine endLine suggestion in
    let kept := Z.to_nat (startLine - 1) in
    Suggestion.newContent content startLine endLine suggestion = Js.join new
    /\ new = take kept lines ++ inserted ++ drop (Z.to_nat endLine) lines
    /\ (forall i : nat, (i < kept)%nat -> new !! i = lines !! i)
    /\ (forall k : nat, (k < length inserted)%nat -> new !! (kept + k)%nat = inserted !! k)
    /\ (forall j : nat, (Z.to_nat endLine <= j)%nat ->
          new !! (kept + length inserted + (j - Z.to_nat endLine))%nat = lines !! j)
    /\ (suggestion <> ""%string -> inserted = Js.split suggestion)
    /\ (suggestion = ""%string -> new = take kept lines ++ drop (Z.to_nat endLine) lines)
    /\ Z.of_nat (length new)
       = Z.of_nat (length lines) - (endLine - startLine + 1) + Z.of_nat (length inserted)
    /\ (new <> [] ->
        Js.split (Suggestion.newContent content startLine endLine suggestion) = new).
Proof.
  intros content suggestion startLine endLine Hs Hse He lines inserted new kept.
  assert (Hlen : endLine <= Z.of_nat (length lines)) by exact He.
  assert (Hnew : new = take kept lines ++ inserted ++ drop (Z.to_nat endLine) lines).
  { unfold new, Suggestion.splicedLines, Suggestion.before, Suggestion.after.
    rewrite slice_prefix by lia. rewrite sliceFrom_suffix by lia. reflexivity. }
  assert (Hkept : length (take kept lines) = kept).
  { rewrite length_take. unfold kept. lia. }
  split; [reflexivity|]. split; [exact Hnew|].
  split.
  { intros i Hi. rewrite Hnew, lookup_app_l by lia. apply lookup_take_lt. exact Hi. }
  split.
  { intros k Hk. rewrite Hnew, lookup_app_r by lia.
    rewrite Hkept. replace (kept + k - kept)%nat with k by lia.
    apply lookup_app_l. exact Hk. }
  split.
  { intros j Hj. rewrite Hnew, lookup_app_r by lia. rewrite Hkept.
    rewrite lookup_app_r by lia. rewrite lookup_drop. f_equal. lia. }
  split.
  { intros Hne. unfold inserted, Suggestion.suggestionLines.
    destruct suggestion; [congruence|reflexivity]. }
  split.
  { intros ->. rewrite Hnew. reflexivity. }
  split.
  { rewrite Hnew. rewrite !length_app, Hkept, length_drop. unfold kept. lia. }
  intros Hne. unfold Suggestion.newContent. fold lines. fold new.
  apply split_join; [exact Hne|].
  rewrite Hnew. rewrite !Forall_app. repeat split.
  - apply Forall_take, split_lines_noNewline.
  - apply suggestionLines_noNewline.
  - apply Forall_drop, split_lines_noNewline.
Qed.

(** Replacing lines 2..3 of a four-line file by three lines gives five
    lines: the first, the three new ones, the last. *)
Lemma commitSuggestion_splices_lines_witness :
  Js.split (Suggestion.newContent (Js.join ["l1"; "l2"; "l3"; "l4"]%string) 2 3
              (Js.join ["x"; "y"; "z"]%string))
  = ["l1"; "x"; "y"; "z"; "l4"]%string.
Proof.
  destruct (commitSuggestion_splices_lines
              (Js.join ["l1"; "l2"; "l3"; "l4"]%string) (Js.join ["x"; "y"; "z"]%string) 2 3)
    as (_ & _ & _ & _ & _ & _ & _ & _ & Hsplit).
  - lia.
  - lia.
  - vm_compute. discriminate.
  - rewrite Hsplit; [vm_compute; reflexivity|vm_compute; discriminate].
Defined.

(** C10.  The [prsInRepo] handed to the scorer has one [merged] entry per
    merged pull request, then one [closed] entry per closed one, then one
    [open] entry per open one, each count being the search result (0 when
    absent), so it has merged + closed + open elements; [commitsInRepo] is
    the merged count; and [repoActivity.prs] of the dossier is the same
    three-way sum. *)
Theorem dossier_prs_in_repo :
  forall (owner authorLogin : string) (u : UserNode) (data : GqlData) (score : Z),
    let s := Dossier.snapshot owner authorLogin u data in
    let merged := Dossier.orZero (d_mergedPrs data) in
    let closed := Dossier.orZero (d_closedPrs data) in
    let open := Dossier.orZero (d_openPrs data) in
    Scorer.prsInRepo s
    = repeat {| Scorer.state := "merged" |} (N.to_nat merged)
      ++ repeat {| Scorer.state := "closed" |} (N.to_nat closed)
      ++ repeat {| Scorer.state := "open" |} (N.to_nat open)
    /\ N.of_nat (length (Scorer.prsInRepo s)) = (merged + closed + open)%N
    /\ (forall i : nat, (i < N.to_nat merged)%nat ->
          Scorer.prsInRepo s !! i = Some {| Scorer.state := "merged" |})
    /\ (forall i : nat, (N.to_nat merged <= i < N.to_nat merged + N.to_nat closed)%nat ->
          Scorer.prsInRepo s !! i = Some {| Scorer.state := "closed" |})
    /\ (forall i : nat,
          (N.to_nat merged + N.to_nat closed <= i
           < N.to_nat merged + N.to_nat closed + N.to_nat open)%nat ->
          Scorer.prsInRepo s !! i = Some {| Scorer.state := "open" |})
    /\ Scorer.commitsInRepo s = Z.of_N merged
    /\ Dossier.activity_prs (Dossier.dossier_repoActivity (Dossier.dossier owner u data score))
       = (merged + closed + open)%N.
Proof.
  intros owner authorLogin u data score s merged closed open.
  cbn [s Dossier.snapshot Scorer.prsInRepo Scorer.commitsInRepo Dossier.dossier
       Dossier.dossier_repoActivity Dossier.activity_prs].
  unfold Dossier.prsInRepo, Dossier.filled, Dossier.totalPrs, Dossier.mergedPrs,
    Dossier.closedPrs, Dossier.openPrs. fold merged closed open.
  split; [reflexivity|]. split.
  { rewrite !length_app, !repeat_length. lia. }
  split.
  { intros i Hi. rewrite lookup_app_l by (rewrite repeat_length; lia).
    apply lookup_repeat. exact Hi. }
  split.
  { intros i Hi. rewrite lookup_app_r by (rewrite repeat_length; lia).
    rewrite lookup_app_l by (rewrite !repeat_length; lia).
    apply lookup_repeat. rewrite repeat_length. lia. }
  split.
  { intros i Hi. rewrite lookup_app_r by (rewrite repeat_length; lia).
    rewrite lookup_app_r by (rewrite !repeat_length; lia).
    apply lookup_repeat. rewrite !repeat_length. lia. }
  split; [reflexivity|lia].
Qed.

(** Two merged, no closed and one open pull request give [merged; merged;
    open]. *)
Lemma dossier_prs_in_repo_witness :
  Scorer.prsInRepo exampleSnapshot
  = [ {| Scorer.state := "merged" |}; {| Scorer.state := "merged" |};
      {| Scorer.state := "open" |} ]
  /\ Scorer.commitsInRepo exampleSnapshot = 2.
Proof.
  destruct (dossier_prs_in_repo "github" "octocat" exampleUser exampleData 0)
    as (Hlist & _ & _ & _ & _ & Hcommits & _).
  unfold exampleSnapshot. split; [rewrite Hlist; reflexivity|rewrite Hcommits; reflexivity].
Defined.

(** * Further properties of the code *)

Import Requests Repository ReadmeCache.

(** ** Splicing at any line numbers *)

Module SpliceFacts.
Import SuggestionFacts.

Lemma join_cons_nonempty (x y : string) (rest : list string) :
  Js.join (x :: y :: rest) = (x ++ String Js.newline (Js.join (y :: rest)))%string.
Proof. reflexivity. Qed.

Lemma join_split (s : string) : Js.join (Js.split s) = s.
Proof.
  induction s as [|c r IH]; [reflexivity|].
  cbn [Js.split]. destruct (Ascii.eqb_spec c Js.newline) as [->|Hc].
  - pose proof (split_nonempty r) as Hne.
    destruct (Js.split r) as [|l ls]; [congruence|].
    rewrite join_cons_nonempty, IH. reflexivity.
  - pose proof (split_nonempty r) as Hne.
    destruct (Js.split r) as [|l ls]; [congruence|].
    destruct ls as [|l' ls'].
    + rewrite <- IH. reflexivity.
    + rewrite <- IH. reflexivity.
Qed.

Lemma slice_prefix_any {A : Type} (l : list A) (n : Z) :
  0 <= n -> Js.slice l 0 n = take (Z.to_nat n) l.
Proof.
  intros Hn. destruct (Z.le_gt_cases n (Z.of_nat (length l))) as [Hle|Hgt].
  - apply slice_prefix. lia.
  - unfold Js.slice, Js.relIndex.
    destruct (Z.ltb_spec 0 0); [lia|]. destruct (Z.ltb_spec n 0); [lia|].
    rewrite (Z.min_l 0) by lia. rewrite (Z.min_r n) by lia.
    rewrite Z.sub_0_r, Nat2Z.id. cbn [drop Z.to_nat].
    change (Z.to_nat 0) with 0%nat. rewrite drop_0.
    rewrite (take_ge l (length l)) by lia.
    rewrite (take_ge l (Z.to_nat n)) by lia. reflexivity.
Qed.

Lemma sliceFrom_suffix_any {A : Type} (l : list A) (n : Z) :
  0 <= n -> Js.sliceFrom l n = drop (Z.to_nat n) l.
Proof.
  intros Hn. destruct (Z.le_gt_cases n (Z.of_nat (length l))) as [Hle|Hgt].
  - apply sliceFrom_suffix. lia.
  - unfold Js.sliceFrom, Js.slice, Js.relIndex.
    destruct (Z.ltb_spec n 0); [lia|].
    destruct (Z.ltb_spec (Z.of_nat (length l)) 0); [lia|].
    rewrite (Z.min_r n) by lia. rewrite Z.min_id, Z.sub_diag.
    change (Z.to_nat 0) with 0%nat. rewrite take_0.
    rewrite drop_ge by lia. reflexivity.
Qed.

Lemma slice_prefix_negative {A : Type} (l : list A) (n : Z) :
  n < 0 -> Js.slice l 0 n = take (Z.to_nat (Z.of_nat (length l) + n)) l.
Proof.
  intros Hn. unfold Js.slice, Js.relIndex.
  destruct (Z.ltb_spec 0 0); [lia|]. destruct (Z.ltb_spec n 0); [|lia].
  rewrite (Z.min_l 0) by lia. rewrite Z.sub_0_r. cbn [drop Z.to_nat].
  f_equal. lia.
Qed.

Lemma sliceFrom_suffix_negative {A : Type} (l : list A) (n : Z) :
  n < 0 -> Js.sliceFrom l n = drop (Z.to_nat (Z.of_nat (length l) + n)) l.
Proof.
  intros Hn. unfold Js.sliceFrom, Js.slice, Js.relIndex.
  destruct (Z.ltb_spec n 0); [|lia].
  destruct (Z.ltb_spec (Z.of_nat (length l)) 0); [lia|].
  rewrite Z.min_id.
  replace (Z.to_nat (Z.max (Z.of_nat (length l) + n) 0))
    with (Z.to_nat (Z.of_nat (length l) + n)) by lia.
  apply take_ge. rewrite length_drop. lia.
Qed.

Lemma slice_middle {A : Type} (l : list A) (a b : Z) :
  0 <= a -> a <= b -> b <= Z.of_nat (length l) ->
  Js.slice l a b = take (Z.to_nat (b - a)) (drop (Z.to_nat a) l).
Proof.
  intros Ha Hab Hb. unfold Js.slice, Js.relIndex.
  destruct (Z.ltb_spec a 0); [lia|]. destruct (Z.ltb_spec b 0); [lia|].
  rewrite (Z.min_l a) by lia. rewrite (Z.min_l b) by lia. reflexivity.
Qed.

Lemma take_middle_drop {A : Type} (l : list A) (a c : nat) :
  take a l ++ take c (drop a l) ++ drop (a + c) l = l.
Proof.
  rewrite <- drop_drop. rewrite (take_drop c (drop a l)). apply take_drop.
Qed.

Lemma join_no_newline_single (ls : list string) :
  ls <> [] -> Forall Js.noNewline ls -> Js.join ls = EmptyString ->
  ls = [EmptyString].
Proof.
  intros Hne Hall Hjoin.
  destruct ls as [|x [|y rest]]; [congruence| |].
  - cbn in Hjoin. subst x. reflexivity.
  - rewrite join_cons_nonempty in Hjoin. destruct x; discriminate.
Qed.

Lemma suggestionLines_nonempty (s : string) :
  s <> EmptyString -> Suggestion.suggestionLines s = Js.split s.
Proof. intros Hne. destruct s; [congruence|reflexivity]. Qed.

End SpliceFacts.

(** ** The requests of a run *)

Module RequestFacts.
Import Actions Exported Requests ScopeFacts RunFacts.

Lemma remoteRequests_app (a b : Trace) :
  remoteRequests (a ++ b) = remoteRequests a ++ remoteRequests b.
Proof. unfold remoteRequests. apply flat_map_app. Qed.

Lemma remoteRequests_nil : remoteRequests [] = [].
Proof. reflexivity. Qed.

Lemma remoteRequests_remote req out (t : Trace) :
  remoteRequests (EvRemote req out :: t) = req :: remoteRequests t.
Proof. reflexivity. Qed.

Lemma remoteRequests_user out (t : Trace) :
  remoteRequests (EvGetAuthenticatedUser out :: t) = remoteRequests t.
Proof. reflexivity. Qed.

Lemma remoteRequests_cache (evs : Trace) :
  forallb isCache evs = true -> remoteRequests evs = [].
Proof.
  induction evs as [|ev evs IH]; [reflexivity|].
  destruct ev; cbn; try discriminate; exact IH.
Qed.

Lemma orElse_nonEmpty (a : option string) (b : string) :
  nonEmpty b = true -> nonEmpty (Js.orElse a b) = true.
Proof.
  intros Hb. unfold Js.orElse, Js.truthy.
  destruct a as [[|c s]|]; auto.
Qed.

Lemma absentOrNonEmpty_truthy (s : option string) :
  absentOrNonEmpty (Js.truthy s) = true.
Proof. destruct s as [[|c s]|]; reflexivity. Qed.

Lemma reviewCommentParams_wellFormed owner repo n body commitId path line side sl ss :
  wellFormed (pulls_createReviewComment
                (reviewCommentParams owner repo n body commitId path line side sl ss))
  = true.
Proof.
  unfold reviewCommentParams, wellFormed. cbn.
  destruct sl as [s|]; [|reflexivity].
  destruct (s =? line) eqn:E; cbn; [reflexivity|]. rewrite E. reflexivity.
Qed.

Lemma append_nonEmpty (a b : string) : nonEmpty b = true -> nonEmpty (a ++ b)%string = true.
Proof. destruct a; auto. Qed.

Lemma commitAuthor_wellFormed (user : option AuthUser) (now : Z) :
  match commitAuthor user now with
  | Some a => nonEmpty (author_name a) && nonEmpty (author_email a)
  | None => true
  end = true.
Proof.
  destruct user as [u|]; [|reflexivity]. cbn.
  rewrite !orElse_nonEmpty; try reflexivity.
  - apply append_nonEmpty. reflexivity.
  - apply orElse_nonEmpty. reflexivity.
Qed.

Lemma blobs_wellFormed owner repo (files : list ResolvedFile) :
  forallb wellFormed
    (map (fun f => git_createBlob owner repo (file_content f) "base64") files) = true.
Proof. induction files as [|f files IH]; [reflexivity|exact IH]. Qed.

Lemma blobs_requests owner repo files w h :
  exists out evs,
    promiseAll (map (createBlobEntry owner repo) files) w h = (out, evs)
    /\ existsb isCache evs = false
    /\ existsb graphqlErrors evs = false
    /\ remoteRequests evs
       = map (fun f => git_createBlob owner repo (file_content f) "base64") files
    /\ (forall entries, out = Returned entries ->
        map te_path entries = map file_path files
        /\ forallb (fun e => String.eqb (te_mode e) "100644"
                             && String.eqb (te_type e) "blob") entries = true).
Proof.
  unfold remoteRequests.
  revert h. induction files as [|f files IH]; intros h.
  - eexists _, _. cbn. repeat split; eauto; inversion H; reflexivity.
  - cbn [map promiseAll]. unfold bind at 1. unfold both.
    unfold createBlobEntry at 1. unfold bind, callRemote, shaOf, ret, throw.
    destruct (w_remote w h _) as [resp|e] eqn:E1;
      [destruct resp|];
      match goal with
      | |- context [promiseAll ?ms w ?h'] =>
          destruct (IH h') as (out & evs & -> & Hc & Hg & Hr & He)
      end;
      destruct out; eexists _, _; (split; [reflexivity|]);
      cbn; rewrite ?existsb_app, ?app_nil_r, ?flat_map_app; cbn;
      rewrite ?Hc, ?Hg, ?Hr;
      repeat split; intros; try discriminate; eauto.
    all: match goal with H : Returned _ = Returned _ |- _ => inversion H; subst end.
    all: destruct (He _ eq_refl) as [Hp Hm]; cbn; rewrite ?Hp, ?Hm; reflexivity.
Qed.

End RequestFacts.

(** ** Error messages, request shapes and single requests, for every mutation *)

Module DisciplineFacts.
Import Actions Exported Requests ScopeFacts RunFacts RequestFacts.

Ltac run_request_step :=
  match goal with
  | |- context [w_getOctokit ?w] => destruct (w_getOctokit w) eqn:?
  | |- context [Js.truthy (w_getGitHubToken ?w)] =>
      destruct (Js.truthy (w_getGitHubToken w)) eqn:?
  | |- context [revalidateAfterPRMutation ?o ?r ?n ?a ?w ?h] =>
      let out := fresh "out" in
      let evs := fresh "evs" in
      let Hall := fresh "Hall" in
      destruct (revalidate_facts o r n a w h) as (out & evs & -> & Hall & _ & _);
      destruct out as [[]|?]
  | |- context [promiseAll (map (createBlobEntry ?o ?r) ?fs) ?w ?h] =>
      let out := fresh "out" in
      let evs := fresh "evs" in
      let Hc := fresh "Hc" in
      let Hg := fresh "Hg" in
      let Hr := fresh "Hr" in
      let He := fresh "He" in
      destruct (blobs_requests o r fs w h) as (out & evs & -> & Hc & Hg & Hr & He);
      destruct out
  | |- context [w_remote ?w ?h ?r] => destruct (w_remote w h r) eqn:?
  | |- context [w_getAuthenticatedUser ?w ?h] => destruct (w_getAuthenticatedUser w h) eqn:?
  | |- context [match ?x with _ => _ end] => is_var x; destruct x
  | |- context [if negb (Js.strictEq ?a ?b) then _ else _] => destruct (Js.strictEq a b)
  | |- context [firstError ?j] => destruct (firstError j) eqn:?
  end; cbn [app fst snd negb]; rewrite ?app_nil_r.

Ltac origin :=
  unfold errorOrigin;
  first
    [ left; split; reflexivity
    | right; left; split; [reflexivity|]; do 9 eexists; reflexivity
    | right; right; left; eexists; reflexivity
    | right; right; right; split; [reflexivity|];
      cbn [existsb graphqlErrors orb];
      repeat match goal with
             | H : firstError ?j = _ |- context [firstError ?j] => rewrite H
             end; reflexivity ].

Ltac requests_ok :=
  repeat match goal with
         | H : forall entries, Returned ?a = Returned entries -> _ |- _ =>
             destruct (H _ eq_refl) as [? ?]; clear H
         | H : forallb isCache ?evs = true |- _ =>
             lazymatch goal with
             | _ : remoteRequests evs = [] |- _ => fail
             | _ => pose proof (remoteRequests_cache evs H)
             end
         end;
  repeat (progress
            (rewrite ?remoteRequests_app, ?remoteRequests_remote, ?remoteRequests_user,
               ?remoteRequests_nil;
             repeat match goal with
                    | H : remoteRequests ?e = _ |- context [remoteRequests ?e] => rewrite H
                    end;
             rewrite ?forallb_app, ?blobs_wellFormed;
             cbn [app forallb andb];
             rewrite ?reviewCommentParams_wellFormed;
             cbn [wellFormed andb length Nat.eqb];
             repeat match goal with
                    | H : forallb ?p ?a = true |- context [forallb ?p ?a] => rewrite H
                    end;
             rewrite ?commitAuthor_wellFormed;
             try rewrite orElse_nonEmpty by reflexivity;
             rewrite ?app_nil_r, ?absentOrNonEmpty_truthy, ?String.eqb_refl));
  try reflexivity.

Ltac single_ok :=
  let token := fresh "token" in
  let req := fresh "req" in
  let Hcred := fresh "Hcred" in
  let Hreq := fresh "Hreq" in
  intros token req Hcred Hreq;
  cbn [credentials usesToken singleRequest] in Hcred, Hreq;
  repeat match goal with
         | H : w_getOctokit ?w = _ |- _ => rewrite H in Hcred
         | H : Js.truthy (w_getGitHubToken ?w) = _ |- _ =>
             tryif constr_eq H Hcred then fail else rewrite H in Hcred
         end;
  cbn beta iota in Hcred;
  first
    [ discriminate Hreq
    | discriminate Hcred
    | inversion Hcred; inversion Hreq; subst;
      match goal with H : w_remote _ _ _ = _ |- _ => rewrite H end;
      eexists; split; [reflexivity|]; first [assumption | reflexivity] ].

Lemma run_discipline (m : Mutation) (w : World) (h : Trace) :
  exists out evs, run m w h = (out, evs) /\ Discipline m w h out evs.
Proof.
  destruct m; cbn [run]; unfold Discipline;
    unfold updatePRBaseBranch, renamePullRequest, mergePullRequest, closePullRequest,
      reopenPullRequest, submitPRReview, addPRComment, addPRReviewComment,
      commitSuggestion, commitFileEditOnPR, resolveReviewThread, unresolveReviewThread,
      commitMergeConflictResolution;
    unfold_actions; rewrite ?app_nil_r; repeat run_request_step;
    eexists _, _; (split; [reflexivity|]); eexists; (split; [reflexivity|]);
    (split; [intros msg Hmsg; try discriminate; inversion Hmsg; subst; origin|]).
  all: split; [requests_ok|single_ok].
Qed.

End DisciplineFacts.

(** ** The cache layer accepting or rejecting *)

Module CacheFacts.
Import Actions Exported Requests ScopeFacts RunFacts RequestFacts DisciplineFacts.

Lemma revalidate_cache_down owner repo pullNumber action w h e :
  cacheRejects w e ->
  revalidateAfterPRMutation owner repo pullNumber action w h
  = (Threw e, [EvInvalidatePullRequestCache owner repo pullNumber]).
Proof.
  intros Hdown. unfold revalidateAfterPRMutation, bind, invalidatePullRequestCache.
  rewrite Hdown. reflexivity.
Qed.

Lemma revalidate_cache_ok owner repo pullNumber action w h :
  cacheAccepts w ->
  revalidateAfterPRMutation owner repo pullNumber action w h
  = (Returned tt, cacheStep owner repo pullNumber (statedTable action)).
Proof.
  intros [Hinv Hrev]. rewrite <- issued_statedTable.
  unfold revalidateAfterPRMutation, issued, bind, when, invalidatePullRequestCache,
    revalidatePath, ret.
  rewrite Hinv.
  destruct (includes (scopesOf action) ScopeDetail);
    destruct (includes (scopesOf action) ScopeList);
    destruct (includes (scopesOf action) ScopeLayout); cbn [revalidation app];
    rewrite ?Hrev; reflexivity.
Qed.

Lemma no_cache_no_revalidate evs :
  existsb isCache evs = false -> existsb isRevalidatePath evs = false.
Proof.
  induction evs as [|ev evs IH]; [reflexivity|].
  destruct ev; cbn; try discriminate; exact IH.
Qed.



Ltac run_step_down Hdown :=
  match goal with
  | |- context [w_getOctokit ?w] => destruct (w_getOctokit w) eqn:?
  | |- context [Js.truthy (w_getGitHubToken ?w)] =>
      destruct (Js.truthy (w_getGitHubToken w)) eqn:?
  | |- context [revalidateAfterPRMutation ?o ?r ?n ?a ?w ?h] =>
      rewrite (revalidate_cache_down o r n a w h _ Hdown)
  | |- context [promiseAll (map (createBlobEntry ?o ?r) ?fs) ?w ?h] =>
      let out := fresh "out" in
      let evs := fresh "evs" in
      let Hc := fresh "Hc" in
      destruct (blobs_requests o r fs w h) as (out & evs & -> & Hc & _ & _ & _);
      pose proof (no_cache_no_revalidate evs Hc);
      destruct out
  | |- context [w_remote ?w ?h ?r] => destruct (w_remote w h r) eqn:?
  | |- context [w_getAuthenticatedUser ?w ?h] => destruct (w_getAuthenticatedUser w h) eqn:?
  | |- context [match ?x with _ => _ end] => is_var x; destruct x
  | |- context [if negb (Js.strictEq ?a ?b) then _ else _] => destruct (Js.strictEq a b)
  | |- context [firstError ?j] => destruct (firstError j) eqn:?
  end; cbn [app fst snd negb]; rewrite ?app_nil_r.

Lemma run_cache_down (m : Mutation) (w : World) (h : Trace) (e : Exn) :
  cacheRejects w e ->
  exists r evs,
    run m w h = (Returned r, evs)
    /\ isSuccess r = false
    /\ existsb isRevalidatePath evs = false
    /\ (existsb isCache evs = true ->
        r = Failure (Js.orElse (Some (w_getErrorMessage w e)) (fallbackMessage m))).
Proof.
  intros Hdown.
  destruct m; cbn [run fallbackMessage];
    unfold updatePRBaseBranch, renamePullRequest, mergePullRequest, closePullRequest,
      reopenPullRequest, submitPRReview, addPRComment, addPRReviewComment,
      commitSuggestion, commitFileEditOnPR, resolveReviewThread, unresolveReviewThread,
      commitMergeConflictResolution;
    unfold_actions; rewrite ?app_nil_r; repeat run_step_down Hdown;
    eexists _, _; (split; [reflexivity|]); (split; [reflexivity|]);
    repeat (progress
              (rewrite ?existsb_app; cbn [existsb isRevalidatePath isCache orb];
               repeat match goal with
                      | H : existsb ?p ?e = _ |- context [existsb ?p ?e] => rewrite H
                      end));
    (split; [reflexivity|]); intros Hcache; try discriminate Hcache; try reflexivity.
Qed.

End CacheFacts.

(** ** The order of the calls *)

Module SequenceFacts.
Import Actions Exported Requests ScopeFacts RunFacts RequestFacts DisciplineFacts CacheFacts.

Lemma cache_holds_no_remote evs req out :
  forallb isCache evs = true -> ~ In (EvRemote req out) evs.
Proof.
  intros Hall Hin. rewrite forallb_forall in Hall.
  specialize (Hall _ Hin). discriminate.
Qed.

Lemma revalidate_prefix owner repo pullNumber action w h :
  exists out evs rest,
    revalidateAfterPRMutation owner repo pullNumber action w h = (out, evs)
    /\ cacheStep owner repo pullNumber (statedTable action) = evs ++ rest
    /\ evs <> []
    /\ (forall v, out = Returned v -> rest = []).
Proof.
  rewrite <- issued_statedTable.
  unfold revalidateAfterPRMutation, issued, bind, when, invalidatePullRequestCache,
    revalidatePath, ret.
  destruct (w_invalidatePullRequestCache w h owner repo pullNumber) as [[]|e].
  2: { eexists _, [_], _. repeat split; [discriminate|discriminate]. }
  destruct (includes (scopesOf action) ScopeDetail);
    destruct (includes (scopesOf action) ScopeList);
    destruct (includes (scopesOf action) ScopeLayout); cbn [revalidation app];
    repeat match goal with
           | |- context [w_revalidatePath ?w ?h ?p ?t] =>
               destruct (w_revalidatePath w h p t) as [[]|?]
           end; cbn [app].
  all: first
         [ eexists _, [_], _; split; [reflexivity|]; split; [reflexivity|];
           split; [discriminate|]; intros; first [reflexivity | discriminate]
         | eexists _, [_; _], _; split; [reflexivity|]; split; [reflexivity|];
           split; [discriminate|]; intros; first [reflexivity | discriminate]
         | eexists _, [_; _; _], _; split; [reflexivity|]; split; [reflexivity|];
           split; [discriminate|]; intros; first [reflexivity | discriminate]
         | eexists _, [_; _; _; _], _; split; [reflexivity|]; split; [reflexivity|];
           split; [discriminate|]; intros; first [reflexivity | discriminate] ].
Qed.


Ltac split_in H :=
  repeat match type of H with
         | In _ (_ :: _) => destruct H as [H|H]; [try discriminate H|]
         | In _ (_ ++ _) => apply in_app_or in H; destruct H as [H|H]
         | In _ (map _ _) => apply in_map_iff in H; destruct H as (? & H & _); discriminate H
         | In _ [] => destruct H
         end.


End SequenceFacts.

(** ** The example worlds *)

Module ExampleFacts.

Lemma signedIn_cacheAccepts remote clock : cacheAccepts (signedIn remote clock).
Proof. split; intros; reflexivity. Qed.

Lemma cacheDown_cacheRejects : cacheRejects cacheDown cacheUnavailable.
Proof. intros h owner repo pullNumber. reflexivity. Qed.

End ExampleFacts.

(** ** Cache keys *)

Module KeyFacts.
Import ReadmeCache.

Lemma append_assoc (a b c : string) : ((a ++ b) ++ c = a ++ (b ++ c))%string.
Proof.
  induction a as [|x a IH]; [reflexivity|].
  change (String x ((a ++ b) ++ c) = String x (a ++ (b ++ c)))%string.
  rewrite IH. reflexivity.
Qed.

Lemma toLowerCase_app (s t : string) :
  Js.toLowerCase (s ++ t) = (Js.toLowerCase s ++ Js.toLowerCase t)%string.
Proof. induction s as [|c s IH]; simpl; [reflexivity|]. rewrite IH. reflexivity. Qed.

Lemma lowerChar_slash_table :
  forallb (fun c => Bool.eqb (Ascii.eqb (Js.lowerChar c) "/") (Ascii.eqb c "/"))
    CaseInsensitive.allChars = true.
Proof. vm_compute. reflexivity. Qed.

Lemma lowerChar_slash (c : ascii) :
  Ascii.eqb (Js.lowerChar c) "/" = Ascii.eqb c "/".
Proof.
  pose proof lowerChar_slash_table as T. rewrite forallb_forall in T.
  apply Bool.eqb_prop, T, allChars_complete.
Qed.

Lemma noSlash_toLowerCase (s : string) : noSlash (Js.toLowerCase s) = noSlash s.
Proof.
  unfold noSlash. induction s as [|c s IH]; simpl; [reflexivity|].
  rewrite lowerChar_slash, IH. reflexivity.
Qed.

Lemma separated_inj (a a' b b' : string) :
  noSlash a = true -> noSlash a' = true ->
  (a ++ "/" ++ b = a' ++ "/" ++ b')%string -> a = a' /\ b = b'.
Proof.
  unfold noSlash. revert a'.
  induction a as [|c a IH]; intros [|c' a']; simpl; intros Ha Ha' E.
  - inversion E. auto.
  - inversion E; subst c'. rewrite Ascii.eqb_refl in Ha'. discriminate Ha'.
  - inversion E; subst c. rewrite Ascii.eqb_refl in Ha. discriminate Ha.
  - inversion E; subst c'.
    apply andb_true_iff in Ha as [_ Ha]. apply andb_true_iff in Ha' as [_ Ha'].
    destruct (IH a' Ha Ha' H1) as [-> ->]. auto.
Qed.

Lemma readmeKey_inj (o o' r r' : string) :
  noSlash o = true -> noSlash o' = true ->
  readmeKey o r = readmeKey o' r' ->
  Js.toLowerCase o = Js.toLowerCase o' /\ Js.toLowerCase r = Js.toLowerCase r'.
Proof.
  intros Ho Ho' E. unfold readmeKey in E.
  apply (separated_inj (Js.toLowerCase o) (Js.toLowerCase o'));
    rewrite ?noSlash_toLowerCase; try assumption.
  revert E. generalize (Js.toLowerCase o ++ "/" ++ Js.toLowerCase r)%string.
  generalize (Js.toLowerCase o' ++ "/" ++ Js.toLowerCase r')%string.
  intros x y E. injection E as E. exact E.
Qed.

End KeyFacts.

Import SpliceFacts RequestFacts DisciplineFacts CacheFacts SequenceFacts ExampleFacts
  KeyFacts.

(** ** The suggestion splice *)

(** X1.  [commitSuggestion] does not check its line numbers against the file:
    for every [startLine] and [endLine] the new lines are a prefix of the old
    lines, the suggestion, and a suffix of the old lines, where a start line
    below 1 and an end line below 0 count from the end of the file.  With
    [endLine = startLine - 1] nothing is removed and the suggestion is
    inserted; with both numbers beyond the last line the suggestion is
    appended. *)
Theorem commitSuggestion_accepts_any_line_numbers :
  forall (lines : list string) (startLine endLine : Z) (suggestion : string),
    let len := Z.of_nat (length lines) in
    let inserted := Suggestion.suggestionLines suggestion in
    let new := Suggestion.splicedLines lines startLine endLine suggestion in
    let keep := if 1 <=? startLine then Z.to_nat (startLine - 1)
                else Z.to_nat (len + startLine - 1) in
    let skip := if 0 <=? endLine then Z.to_nat endLine else Z.to_nat (len + endLine) in
    new = take keep lines ++ inserted ++ drop skip lines
    /\ length new
       = (Nat.min keep (length lines) + length inserted
          + (length lines - skip))%nat
    /\ (1 <= startLine <= len + 1 -> endLine = startLine - 1 ->
        new = take keep lines ++ inserted ++ drop keep lines
        /\ length new = (length lines + length inserted)%nat)
    /\ (len < startLine -> len <= endLine -> new = lines ++ inserted).
Proof.
  intros lines startLine endLine suggestion len inserted new keep skip.
  assert (Hnew : new = take keep lines ++ inserted ++ drop skip lines).
  { unfold new, Suggestion.splicedLines, Suggestion.before, Suggestion.after.
    f_equal; [|f_equal].
    - unfold keep. destruct (Z.leb_spec 1 startLine).
      + apply slice_prefix_any. lia.
      + rewrite slice_prefix_negative by lia. f_equal. unfold len. lia.
    - unfold skip. destruct (Z.leb_spec 0 endLine).
      + apply sliceFrom_suffix_any. lia.
      + apply sliceFrom_suffix_negative. lia. }
  split; [exact Hnew|]. split.
  { rewrite Hnew, !length_app, length_take, length_drop. lia. }
  split.
  - intros Hs He.
    assert (Hskip : skip = keep).
    { unfold skip, keep. destruct (Z.leb_spec 1 startLine); [|lia].
      destruct (Z.leb_spec 0 endLine); [|lia]. f_equal. lia. }
    rewrite Hnew, Hskip. split; [reflexivity|].
    rewrite !length_app, length_take, length_drop.
    unfold keep. destruct (Z.leb_spec 1 startLine); [|lia]. unfold len in Hs. lia.
  - intros Hs He. rewrite Hnew.
    unfold keep, skip. destruct (Z.leb_spec 1 startLine); [|lia].
    destruct (Z.leb_spec 0 endLine); [|lia].
    rewrite take_ge by (unfold len in *; lia).
    rewrite drop_ge by (unfold len in *; lia).
    rewrite app_nil_r. reflexivity.
Qed.

(** Lines 3 to 0 of a three-line file: two lines are kept, nothing is
    skipped, and the file grows; lines 0 to 3: the start counts from the
    end. *)
Lemma commitSuggestion_accepts_any_line_numbers_witness :
  Suggestion.splicedLines ["a"; "b"; "c"]%string 3 0 "x"
  = ["a"; "b"; "x"; "a"; "b"; "c"]%string
  /\ Suggestion.splicedLines ["a"; "b"; "c"]%string 0 3 "x" = ["a"; "b"; "x"]%string.
Proof.
  split.
  - rewrite (proj1 (commitSuggestion_accepts_any_line_numbers
                      ["a"; "b"; "c"]%string 3 0 "x")). reflexivity.
  - rewrite (proj1 (commitSuggestion_accepts_any_line_numbers
                      ["a"; "b"; "c"]%string 0 3 "x")). reflexivity.
Defined.

(** X2.  Suggesting the text that lines [startLine..endLine] already hold
    gives back the file unchanged, character for character, unless that text
    is the empty string: a single empty line, suggested as the empty string,
    is removed, because an empty suggestion stands for no lines. *)
Theorem commitSuggestion_same_text_is_identity :
  forall (content : string) (startLine endLine : Z),
    1 <= startLine -> startLine <= endLine ->
    endLine <= Z.of_nat (length (Js.split content)) ->
    let lines := Js.split content in
    let old := Js.join (Js.slice lines (startLine - 1) endLine) in
    (old <> EmptyString ->
     Suggestion.newContent content startLine endLine old = content)
    /\ (old = EmptyString ->
        startLine = endLine
        /\ Suggestion.splicedLines lines startLine endLine old
           = take (Z.to_nat (startLine - 1)) lines ++ drop (Z.to_nat endLine) lines).
Proof.
  intros content startLine endLine Hs Hse He lines old.
  assert (Hlen : endLine <= Z.of_nat (length lines)) by exact He.
  set (mid := take (Z.to_nat (endLine - (startLine - 1)))
                (drop (Z.to_nat (startLine - 1)) lines)).
  assert (Hold : old = Js.join mid).
  { unfold old. rewrite slice_middle by lia. reflexivity. }
  assert (Hmidlen : length mid = Z.to_nat (endLine - startLine + 1)).
  { unfold mid. rewrite length_take, length_drop. lia. }
  assert (Hmid : mid <> []).
  { intros E. rewrite E in Hmidlen. cbn in Hmidlen. lia. }
  assert (Hnl : Forall Js.noNewline mid).
  { unfold mid. apply Forall_take, Forall_drop, split_lines_noNewline. }
  assert (Hsplice : forall s,
             Suggestion.splicedLines lines startLine endLine s
             = take (Z.to_nat (startLine - 1)) lines ++ Suggestion.suggestionLines s
               ++ drop (Z.to_nat endLine) lines).
  { intros s. unfold Suggestion.splicedLines, Suggestion.before, Suggestion.after.
    rewrite slice_prefix by lia. rewrite sliceFrom_suffix by lia. reflexivity. }
  split.
  - intros Hne. unfold Suggestion.newContent. fold lines. rewrite Hsplice.
    assert (Hins : Suggestion.suggestionLines old = mid).
    { rewrite suggestionLines_nonempty by exact Hne. rewrite Hold.
      apply split_join; assumption. }
    rewrite Hins. unfold mid.
    replace (Z.to_nat endLine)
      with (Z.to_nat (startLine - 1) + Z.to_nat (endLine - (startLine - 1)))%nat
      by lia.
    rewrite take_middle_drop. apply join_split.
  - intros Hempty. rewrite Hold in Hempty.
    pose proof (join_no_newline_single mid Hmid Hnl Hempty) as Hone.
    rewrite Hone in Hmidlen. cbn [length] in Hmidlen.
    split; [lia|]. rewrite Hsplice, Hold, Hempty. reflexivity.
Qed.

(** Lines 2 to 3 of a file that ends in a newline. *)
Lemma commitSuggestion_same_text_is_identity_witness :
  Suggestion.newContent (Js.join ["l1"; "l2"; "l3"; ""]%string) 2 3
    (Js.join ["l2"; "l3"]%string)
  = Js.join ["l1"; "l2"; "l3"; ""]%string.
Proof.
  apply (commitSuggestion_same_text_is_identity
           (Js.join ["l1"; "l2"; "l3"; ""]%string) 2 3).
  - lia.
  - lia.
  - vm_compute. discriminate.
  - vm_compute. discriminate.
Defined.

(** X3.  Every file write of [commitSuggestion] follows a read of the same
    path on the same branch that answered with a file: the write goes to the
    coordinates that were read, carries the blob identifier the read returned,
    the content spliced from the content that was read, and the stated or
    default message; the read and this write are the only requests of the
    run. *)
Theorem commitSuggestion_writes_only_what_it_read :
  forall (owner repo : string) (pullNumber : Z) (path branch : string)
         (startLine endLine : Z) (suggestion : string) (commitMessage : option string)
         (w : World) (h : Trace)
         (owner' repo' path' message' content' sha' branch' : string)
         (out : Outcome Response),
    In (EvRemote (repos_createOrUpdateFileContents owner' repo' path' message'
                    content' sha' branch') out)
       (snd (commitSuggestion owner repo pullNumber path branch startLine endLine
               suggestion commitMessage w h)) ->
    exists content,
      w_remote w h (repos_getContent owner repo path branch)
      = Returned (RContent (ContentEntry "file" content sha'))
      /\ owner' = owner /\ repo' = repo /\ path' = path /\ branch' = branch
      /\ content' = Suggestion.newContent content startLine endLine suggestion
      /\ message' = suggestionMessage commitMessage path startLine endLine
      /\ remoteRequests
           (snd (commitSuggestion owner repo pullNumber path branch startLine endLine
                   suggestion commitMessage w h))
         = [ repos_getContent owner repo path branch;
             repos_createOrUpdateFileContents owner repo path message' content' sha'
               branch ].
Proof.
  intros owner repo pullNumber path branch startLine endLine suggestion commitMessage
    w h owner' repo' path' message' content' sha' branch' out.
  unfold commitSuggestion. unfold_actions. rewrite ?app_nil_r.
  destruct (w_getOctokit w) as [client|]; cbn [app fst snd]; [|intros []].
  destruct (w_remote w h (repos_getContent owner repo path branch)) as [resp|e] eqn:Eread;
    cbn [app fst snd]; rewrite ?app_nil_r.
  2: { cbn. intros [H|[]]. discriminate H. }
  destruct resp as [| [entries|type content sha] | | | | |]; cbn [app fst snd];
    rewrite ?app_nil_r;
    try (cbn; intros [H|[]]; discriminate H).
  destruct (Js.strictEq type "file") eqn:Etype; cbn [app fst snd negb];
    rewrite ?app_nil_r;
    [|cbn; intros [H|[]]; discriminate H].
  apply String.eqb_eq in Etype. subst type.
  destruct (w_remote w _ (repos_createOrUpdateFileContents _ _ _ _ _ _ _))
    as [resp|e] eqn:Ewrite; cbn [app fst snd]; rewrite ?app_nil_r.
  - destruct (revalidate_facts owner repo pullNumber "suggestion" w
                ((h ++ [EvRemote (repos_getContent owner repo path branch)
                          (Returned (RContent (ContentEntry "file" content sha)))])
                 ++ [EvRemote (repos_createOrUpdateFileContents owner repo path
                                 (suggestionMessage commitMessage path startLine endLine)
                                 (Suggestion.newContent content startLine endLine suggestion)
                                 sha branch) (Returned resp)]))
      as (o & evs & -> & Hall & _ & _).
    destruct o as [[]|e]; cbn [app fst snd]; rewrite ?app_nil_r;
      (intros [H|[H|H]];
       [discriminate H
       |inversion H; subst; exists content; repeat split;
        rewrite !remoteRequests_remote, (remoteRequests_cache _ Hall); reflexivity
       |exfalso; exact (cache_holds_no_remote _ _ _ Hall H)]).
  - intros [H|[H|[]]]; [discriminate H|].
    inversion H; subst. exists content. repeat split.
Qed.

(** The write of a suggestion for line 2 of the file of [repository]. *)
Lemma commitSuggestion_writes_only_what_it_read_witness :
  exists content,
    w_remote developer [] (repos_getContent "acme" "hub" "README.md" "fix")
    = Returned (RContent (ContentEntry "file" content "abc123"))
    /\ Js.join ["a"; "B"]%string = Suggestion.newContent content 2 2 "B".
Proof.
  destruct (commitSuggestion_writes_only_what_it_read
              "acme" "hub" 42 "README.md" "fix" 2 2 "B" None developer []
              "acme" "hub" "README.md" "Apply suggestion to README.md (lines 2-2)"
              (Js.join ["a"; "B"]%string) "abc123" "fix"
              (Returned (RFileCommit (Some "def456"))))
    as (content & Hread & _ & _ & _ & _ & Hcontent & _).
  - vm_compute. right. left. reflexivity.
  - exists content. split; assumption.
Defined.

(** ** Merge conflict resolution *)



(** X5.  Whatever the hosting API answers, [commitMergeConflictResolution]
    updates no reference other than the head branch of the repository it was
    called for: a reference update is the last request of the run, occurs
    once, and follows the creation of a commit. *)
Theorem conflict_resolution_moves_only_the_head_branch :
  forall (owner repo : string) (pullNumber : Z) (headBranch baseBranch : string)
         (resolvedFiles : list ResolvedFile) (commitMessage : option string)
         (w : World) (h : Trace) (owner' repo' ref sha : string),
    In (git_updateRef owner' repo' ref sha)
       (remoteRequests
          (snd (commitMergeConflictResolution owner repo pullNumber headBranch baseBranch
                  resolvedFiles commitMessage w h))) ->
    owner' = owner /\ repo' = repo
    /\ ref = ("heads/" ++ headBranch)%string
    /\ exists before,
         remoteRequests
           (snd (commitMergeConflictResolution owner repo pullNumber headBranch baseBranch
                   resolvedFiles commitMessage w h))
         = before ++ [git_updateRef owner repo ref sha]
         /\ ~ In (git_updateRef owner repo ref sha) before
         /\ exists message tree parents author,
              In (git_createCommit owner repo message tree parents author) before.
Proof.
  intros owner repo pullNumber headBranch baseBranch resolvedFiles commitMessage w h
    owner' repo' ref sha.
  unfold commitMergeConflictResolution. unfold_actions. rewrite ?app_nil_r.
  repeat run_request_step.
  all: cbn [snd].
  all: repeat match goal with
              | H : forallb isCache ?evs = true |- _ =>
                  lazymatch goal with
                  | _ : remoteRequests evs = [] |- _ => fail
                  | _ => pose proof (remoteRequests_cache evs H)
                  end
              end.
  all: repeat (progress
                 (rewrite ?remoteRequests_app, ?remoteRequests_remote, ?remoteRequests_user,
                    ?remoteRequests_nil;
                  repeat match goal with
                         | H : remoteRequests ?e = _ |- context [remoteRequests ?e] =>
                             rewrite H
                         end));
       cbn [app]; rewrite ?app_nil_r.
  all: intros Hin; split_in Hin.
  all: inversion Hin; subst; repeat split.
  all: match goal with
       | |- exists before, ?a :: ?b :: ?c :: (?M ++ [?d; ?e; ?f]) = _ /\ _ =>
           exists (a :: b :: c :: (M ++ [d; e]))
       end.
  all: split; [cbn [app]; rewrite <- app_assoc; reflexivity|].
  all: split;
    [ intros Hb; split_in Hb
    | do 4 eexists; right; right; right; apply in_or_app; right; right; left; reflexivity ].
Qed.

(** The run of [developer] ends in the update of "heads/fix". *)
Lemma conflict_resolution_moves_only_the_head_branch_witness :
  exists before,
    remoteRequests
      (snd (commitMergeConflictResolution "acme" "hub" 42 "fix" "main" resolved None
              developer []))
    = before ++ [git_updateRef "acme" "hub" "heads/fix" "c0ffee"]
    /\ ~ In (git_updateRef "acme" "hub" "heads/fix" "c0ffee") before.
Proof.
  destruct (conflict_resolution_moves_only_the_head_branch "acme" "hub" 42 "fix" "main"
              resolved None developer [] "acme" "hub" "heads/fix" "c0ffee")
    as (_ & _ & _ & before & Heq & Hnot & _).
  - vm_compute. do 7 right. left. reflexivity.
  - exists before. split; assumption.
Defined.

(** ** All mutations *)

(** X6.  [resolveReviewThread] and [unresolveReviewThread] never read the
    HTTP status of the GraphQL response: whatever [ok] is, a body without an
    error list makes the operation invalidate the pull-request cache,
    revalidate the detail page and return [{ success: true }]. *)
Theorem thread_mutations_ignore_http_status :
  forall (threadId owner repo : string) (pullNumber : Z) (w : World) (h : Trace)
         (token : string) (ok : bool) (json : GqlJson),
    Js.truthy (w_getGitHubToken w) = Some token ->
    cacheAccepts w ->
    firstError json = None ->
    (w_remote w h (graphql token (ResolveReviewThreadMutation threadId))
     = Returned (RFetch ok (Returned json)) ->
     resolveReviewThread threadId owner repo pullNumber w h
     = (Returned Success,
        EvRemote (graphql token (ResolveReviewThreadMutation threadId))
          (Returned (RFetch ok (Returned json)))
          :: cacheStep owner repo pullNumber [ScopeDetail]))
    /\ (w_remote w h (graphql token (UnresolveReviewThreadMutation threadId))
        = Returned (RFetch ok (Returned json)) ->
        unresolveReviewThread threadId owner repo pullNumber w h
        = (Returned Success,
           EvRemote (graphql token (UnresolveReviewThreadMutation threadId))
             (Returned (RFetch ok (Returned json)))
             :: cacheStep owner repo pullNumber [ScopeDetail])).
Proof.
  intros threadId owner repo pullNumber w h token ok json Htoken Hcache Hnone.
  split; intros Hremote;
    unfold resolveReviewThread, unresolveReviewThread; unfold_actions;
    rewrite Htoken; cbn [app]; rewrite ?app_nil_r, Hremote; cbn [app];
    rewrite Hnone, (revalidate_cache_ok _ _ _ _ _ _ Hcache); rewrite ?app_nil_r;
    reflexivity.
Qed.

(** An answer with an error status and an empty body. *)
Lemma thread_mutations_ignore_http_status_witness :
  resolveReviewThread "PRRT_1" "acme" "hub" 42 (signedIn unauthorized 0) []
  = (Returned Success,
     [ EvRemote (graphql "gho_token" (ResolveReviewThreadMutation "PRRT_1"))
         (Returned (RFetch false (Returned {| json_errors := None; json_data := None |})));
       EvInvalidatePullRequestCache "acme" "hub" 42;
       EvRevalidatePath "/repos/acme/hub/pulls/42" None ]).
Proof.
  apply (proj1 (thread_mutations_ignore_http_status "PRRT_1" "acme" "hub" 42
                  (signedIn unauthorized 0) [] "gho_token" false
                  {| json_errors := None; json_data := None |}
                  eq_refl (signedIn_cacheAccepts unauthorized 0) eq_refl)).
  reflexivity.
Defined.

(** X7.  The cache step sits inside the [try] block of every mutation: when
    [invalidatePullRequestCache] rejects, no mutation reports success and no
    path is revalidated; a run that reached the cache step returns the
    message of the cache failure (or the fallback of the operation), although
    every request to the hosting API had been answered without a failure. *)
Theorem cache_outage_turns_every_mutation_into_an_error :
  forall (m : Mutation) (w : World) (h : Trace) (e : Exn),
    cacheRejects w e ->
    exists r evs,
      run m w h = (Returned r, evs)
      /\ isSuccess r = false
      /\ existsb isRevalidatePath evs = false
      /\ (existsb isCache evs = true ->
          r = Failure (Js.orElse (Some (w_getErrorMessage w e)) (fallbackMessage m))
          /\ existsb threw evs = false
          /\ existsb graphqlErrors evs = false).
Proof.
  intros m w h e Hdown.
  destruct (run_cache_down m w h e Hdown) as (r & evs & Hrun & Hfail & Hrev & Hmsg).
  exists r, evs. repeat split; try assumption; try (apply Hmsg; assumption).
  - destruct (run_facts m w h) as (out & evs0 & Hrun0 & r0 & _ & _ & Herr & _).
    rewrite Hrun in Hrun0. inversion Hrun0; subst.
    destruct (existsb threw evs0) eqn:Et; [|reflexivity].
    destruct (Herr eq_refl) as [_ Hnone]. unfold cacheEvents in Hnone.
    apply existsb_exists in H as (ev & Hin & Hev).
    assert (Hf : In ev (List.filter isCache evs0)) by (apply filter_In; auto).
    rewrite Hnone in Hf. destruct Hf.
  - destruct (run_facts m w h) as (out & evs0 & Hrun0 & r0 & _ & _ & Herr & _).
    rewrite Hrun in Hrun0. inversion Hrun0; subst.
    destruct (existsb graphqlErrors evs0) eqn:Eg; [|reflexivity].
    destruct (Herr (orb_true_r _)) as [_ Hnone]. unfold cacheEvents in Hnone.
    apply existsb_exists in H as (ev & Hin & Hev).
    assert (Hf : In ev (List.filter isCache evs0)) by (apply filter_In; auto).
    rewrite Hnone in Hf. destruct Hf.
Qed.

(** A merge the hosting API accepted, reported as an error. *)
Lemma cache_outage_turns_every_mutation_into_an_error_witness :
  run (MergePullRequest "acme" "hub" 42 squash None None) cacheDown []
  = (Returned (Failure "cache unavailable"),
     [ EvRemote (pulls_merge "acme" "hub" 42 squash None None) (Returned RNone);
       EvInvalidatePullRequestCache "acme" "hub" 42 ]).
Proof.
  destruct (cache_outage_turns_every_mutation_into_an_error
              (MergePullRequest "acme" "hub" 42 squash None None) cacheDown []
              cacheUnavailable cacheDown_cacheRejects)
    as (r & evs & Hrun & _ & _ & Hmsg).
  rewrite Hrun.
  assert (Hevs : evs = snd (run (MergePullRequest "acme" "hub" 42 squash None None)
                              cacheDown [])) by (rewrite Hrun; reflexivity).
  destruct Hmsg as (-> & _ & _); [rewrite Hevs; vm_compute; reflexivity|].
  rewrite Hevs. vm_compute. reflexivity.
Defined.



(** X9.  Every request a mutation sends is well formed, whatever its
    arguments and whatever the hosting API answers: empty titles, messages and
    review bodies are left out, a review comment carries a range only when the
    start line differs from the line, blobs are base64, tree entries are plain
    blobs, and a merge commit has a message, two parents and, when it names an
    author, a name and an address. *)
Theorem requests_are_well_formed :
  forall (m : Mutation) (w : World) (h : Trace) (req : Request),
    In req (remoteRequests (snd (run m w h))) -> wellFormed req = true.
Proof.
  intros m w h req Hin.
  destruct (run_discipline m w h) as (out & evs & Hrun & r & _ & _ & Hwf & _).
  rewrite Hrun in Hin. cbn [snd] in Hin.
  rewrite forallb_forall in Hwf. apply Hwf, Hin.
Qed.

(** An empty merge title is left out; a comment whose start line is its line
    carries no range. *)
Lemma requests_are_well_formed_witness :
  wellFormed (pulls_merge "acme" "hub" 42 squash None (Some "Fix the parser")) = true
  /\ wellFormed
       (pulls_createReviewComment
          (reviewCommentParams "acme" "hub" 42 "nit" "c0ffee" "a.ts" 7 RIGHT (Some 7) None))
     = true.
Proof.
  split.
  - apply (requests_are_well_formed
             (MergePullRequest "acme" "hub" 42 squash (Some "") (Some "Fix the parser"))
             (signedIn accepting 0) []).
    vm_compute. left. reflexivity.
  - apply (requests_are_well_formed
             (AddPRReviewComment "acme" "hub" 42 "nit" "c0ffee" "a.ts" 7 RIGHT
                (Some 7) None)
             (signedIn accepting 0) []).
    vm_compute. left. reflexivity.
Defined.

(** X10.  Each of the eleven mutations other than [commitSuggestion] and
    [commitMergeConflictResolution], once credentials are found, sends exactly
    one request to the hosting API, before anything else; all that follows it
    are calls to the cache layer. *)
Theorem single_request_mutations_call_once :
  forall (m : Mutation) (w : World) (h : Trace) (token : string) (req : Request),
    credentials w m = Some token ->
    singleRequest token m = Some req ->
    exists cache,
      snd (run m w h) = EvRemote req (w_remote w h req) :: cache
      /\ forallb isCache cache = true
      /\ remoteRequests (snd (run m w h)) = [req].
Proof.
  intros m w h token req Hcred Hreq.
  destruct (run_discipline m w h) as (out & evs & Hrun & r & _ & _ & _ & Hone).
  destruct (Hone token req Hcred Hreq) as (cache & -> & Hcache).
  rewrite Hrun. cbn [snd]. exists cache. repeat split; [assumption|].
  rewrite remoteRequests_remote, (remoteRequests_cache _ Hcache). reflexivity.
Qed.

(** Closing a pull request while the hosting API is down. *)
Lemma single_request_mutations_call_once_witness :
  remoteRequests (snd (run (ClosePullRequest "acme" "hub" 42) offline []))
  = [pulls_update "acme" "hub" 42 (UpdateState "closed")].
Proof.
  destruct (single_request_mutations_call_once
              (ClosePullRequest "acme" "hub" 42) offline [] EmptyString
              (pulls_update "acme" "hub" 42 (UpdateState "closed")) eq_refl eq_refl)
    as (cache & _ & _ & Hreq).
  exact Hreq.
Defined.

(** X11.  The calls of [revalidateAfterPRMutation] are a non-empty prefix of
    the invalidation followed by the revalidations of the action's scopes, at
    most four calls; the prefix is the whole sequence when the step returns,
    and a shorter prefix means the step threw. *)
Theorem revalidation_stops_at_first_failure :
  forall (owner repo : string) (pullNumber : Z) (action : string) (w : World) (h : Trace)
         (out : Outcome unit) (evs : Trace),
    revalidateAfterPRMutation owner repo pullNumber action w h = (out, evs) ->
    exists rest,
      cacheStep owner repo pullNumber (statedTable action) = evs ++ rest
      /\ evs <> []
      /\ (length evs <= 4)%nat
      /\ (forall v, out = Returned v -> rest = [])
      /\ (rest <> [] -> exists e, out = Threw e).
Proof.
  intros owner repo pullNumber action w h out evs Hrun.
  destruct (revalidate_prefix owner repo pullNumber action w h)
    as (out0 & evs0 & rest & Hrun0 & Hfull & Hne & Hret).
  rewrite Hrun in Hrun0. inversion Hrun0; subst out0 evs0.
  exists rest. repeat split; try assumption.
  - assert (Hlen : (length (cacheStep owner repo pullNumber (statedTable action)) <= 4)%nat).
    { unfold cacheStep, statedTable. repeat case_decide; cbn; lia. }
    rewrite Hfull, length_app in Hlen. lia.
  - intros Hrest. destruct out as [v|e]; [|eauto].
    exfalso. apply Hrest. exact (Hret v eq_refl).
Qed.

(** A rejected invalidation leaves the three revalidations of a merge
    undone. *)
Lemma revalidation_stops_at_first_failure_witness :
  exists rest,
    cacheStep "acme" "hub" 42 (statedTable "merge")
    = [EvInvalidatePullRequestCache "acme" "hub" 42] ++ rest
    /\ length rest = 3%nat.
Proof.
  destruct (revalidation_stops_at_first_failure "acme" "hub" 42 "merge" cacheDown []
              (Threw cacheUnavailable) [EvInvalidatePullRequestCache "acme" "hub" 42]
              eq_refl)
    as (rest & Hfull & _).
  exists rest. split; [exact Hfull|].
  vm_compute in Hfull. inversion Hfull. reflexivity.
Defined.

(** ** The author dossier *)



(** X14.  The letter case of the owner and of the author's login reaches the
    dossier only through the request: two calls whose owners and logins agree
    once lower-cased, and whose requests are answered alike, return the same
    dossier, and the snapshots handed to the scorer are equal. *)
Theorem dossier_ignores_letter_case :
  forall (P : Scorer.ScoringParams) (owner owner' repo repo' authorLogin authorLogin' : string)
         (w : World) (h : Trace) (token : string),
    Js.toLowerCase owner = Js.toLowerCase owner' ->
    Js.toLowerCase authorLogin = Js.toLowerCase authorLogin' ->
    Js.truthy (w_getGitHubToken w) = Some token ->
    w_remote w h
      (graphql token (AuthorDossierQuery (owner ++ "/" ++ repo)%string authorLogin))
    = w_remote w h
        (graphql token (AuthorDossierQuery (owner' ++ "/" ++ repo')%string authorLogin')) ->
    fst (Dossier.fetchAuthorDossier P owner repo authorLogin w h)
    = fst (Dossier.fetchAuthorDossier P owner' repo' authorLogin' w h)
    /\ (forall u data,
          Dossier.snapshot owner authorLogin u data
          = Dossier.snapshot owner' authorLogin' u data).
Proof.
  intros P owner owner' repo repo' authorLogin authorLogin' w h token Ho Hl Htoken Hsame.
  assert (Hsnap : forall u data,
             Dossier.snapshot owner authorLogin u data
             = Dossier.snapshot owner' authorLogin' u data).
  { intros u data. unfold Dossier.snapshot, Dossier.isOrgMember.
    rewrite Ho, Hl. reflexivity. }
  split; [|exact Hsnap].
  unfold Dossier.fetchAuthorDossier, Dossier.fetchAuthorDossierGraphQL, Dossier.score,
    consoleError.
  unfold_actions.
  rewrite Htoken. cbn [app fst]. rewrite !app_nil_r, Hsame. clear Hsame.
  destruct (w_remote w h _) as [resp|e]; cbn [app fst]; [|reflexivity].
  destruct resp as [| | | | | |ok [json|e]]; cbn [app negb fst]; try reflexivity.
  - destruct ok; cbn [negb app fst]; [|reflexivity].
    destruct (json_data json) as [data|]; cbn [app fst]; [|reflexivity].
    destruct (d_user data) as [u|]; cbn [app fst]; [|reflexivity].
    unfold Dossier.scorerCall, Dossier.dossier, Dossier.isOrgMember.
    rewrite (Hsnap u data), Ho. reflexivity.
  - destruct ok; reflexivity.
Qed.

(** "GitHub"/"OctoCat" and "github"/"octocat". *)
Lemma dossier_ignores_letter_case_witness :
  fst (Dossier.fetchAuthorDossier Scorer.exampleParams "GitHub" "hub" "OctoCat"
         (signedIn answeringDossier 0) [])
  = fst (Dossier.fetchAuthorDossier Scorer.exampleParams "github" "Hub" "octocat"
           (signedIn answeringDossier 0) []).
Proof.
  apply (dossier_ignores_letter_case Scorer.exampleParams "GitHub" "github" "hub" "Hub"
           "OctoCat" "octocat" (signedIn answeringDossier 0) [] "gho_token");
    reflexivity.
Defined.

(** X15.  The dossier shows the first three of the user's top repositories,
    in the order of the response, while the snapshot handed to the scorer
    holds the star counts of all of them (absent counts as 0); the star counts
    of the shown repositories are the first three of the scored ones. *)
Theorem dossier_shows_three_repositories_scores_all :
  forall (owner authorLogin : string) (u : UserNode) (data : GqlData) (score : Z),
    let nodes := Dossier.orEmpty (u_topRepositories u) in
    let shown := Dossier.dossier_topRepos (Dossier.dossier owner u data score) in
    let stars := Scorer.topRepoStars (Dossier.snapshot owner authorLogin u data) in
    shown = map (fun r => {| Dossier.top_name := repo_name r;
                             Dossier.top_full_name := repo_nameWithOwner r;
                             Dossier.top_stargazers_count :=
                               Dossier.orZero (repo_stargazerCount r);
                             Dossier.top_language := repo_primaryLanguage r |})
              (take 3 nodes)
    /\ length shown = Nat.min 3 (length nodes)
    /\ stars = map (fun r => Z.of_N (Dossier.orZero (repo_stargazerCount r))) nodes
    /\ map (fun r => Z.of_N (Dossier.top_stargazers_count r)) shown = take 3 stars.
Proof.
  intros owner authorLogin u data score nodes shown stars.
  assert (Hshown : shown = take 3 (Dossier.topRepos u)).
  { unfold shown, Dossier.dossier, Dossier.dossier_topRepos.
    apply (SpliceFacts.slice_prefix_any (Dossier.topRepos u) 3). lia. }
  assert (Hstars : stars = map (fun r => Z.of_N (Dossier.orZero (repo_stargazerCount r)))
                             nodes).
  { unfold stars, Dossier.snapshot, Scorer.topRepoStars, Dossier.topRepos.
    rewrite map_map. reflexivity. }
  repeat split.
  - rewrite Hshown. unfold Dossier.topRepos. fold nodes. apply firstn_map.
  - rewrite Hshown. unfold Dossier.topRepos. fold nodes.
    rewrite length_take, length_map. lia.
  - exact Hstars.
  - rewrite Hshown, Hstars. unfold Dossier.topRepos. fold nodes.
    rewrite !firstn_map, map_map. reflexivity.
Qed.

(** ** The README cache *)

(** X16.  For owners without a slash, two repositories have the same cache
    key exactly when their owners and their names agree once lower-cased. *)
Theorem readmeKey_identifies_repository_up_to_case :
  forall (owner repo owner' repo' : string),
    noSlash owner = true -> noSlash owner' = true ->
    (readmeKey owner repo = readmeKey owner' repo'
     <-> Js.toLowerCase owner = Js.toLowerCase owner'
         /\ Js.toLowerCase repo = Js.toLowerCase repo').
Proof.
  intros owner repo owner' repo' Ho Ho'. split.
  - apply readmeKey_inj; assumption.
  - intros [E1 E2]. unfold readmeKey. rewrite E1, E2. reflexivity.
Qed.

(** Letter case does not change the key; another name does. *)
Lemma readmeKey_identifies_repository_up_to_case_witness :
  readmeKey "Acme" "Better-Hub" = readmeKey "acme" "better-hub"
  /\ readmeKey "acme" "hub" <> readmeKey "acme" "hubs".
Proof.
  split.
  - apply (readmeKey_identifies_repository_up_to_case "Acme" "Better-Hub" "acme"
             "better-hub"); [reflexivity|reflexivity|].
    split; reflexivity.
  - intros E.
    apply (readmeKey_identifies_repository_up_to_case "acme" "hub" "acme" "hubs")
      in E as [_ E]; [discriminate E|reflexivity|reflexivity].
Defined.

(** X17.  The key does not escape the separator: an owner that holds a slash
    shares its key with the owner before the slash and a longer name. *)
Theorem readmeKey_collides_across_the_separator :
  forall (owner middle repo : string),
    readmeKey (owner ++ "/" ++ middle) repo = readmeKey owner (middle ++ "/" ++ repo).
Proof.
  intros owner middle repo. unfold readmeKey.
  rewrite !toLowerCase_app, !append_assoc. reflexivity.
Qed.

(** X18.  With a Redis client in which a value set under a key is read back
    under it, other keys are left alone and a deleted key is absent: HTML
    stored for a repository is returned for every spelling of its owner and
    name that differs in letter case only, deleting it under any such
    spelling removes it, and storing it leaves the entry of every other
    repository (owners without a slash) as it was. *)
Theorem readme_cache_round_trip :
  forall (S : Type) (client : RedisClient S),
    (forall k v ex s s',
        0 < ex -> redis_set k v ex s = (Returned tt, s') ->
        redis_get k s' = (Returned (Some v), s')) ->
    (forall k k' v ex s s',
        k <> k' -> redis_set k v ex s = (Returned tt, s') ->
        fst (redis_get k' s') = fst (redis_get k' s)) ->
    (forall k s s',
        redis_del k s = (Returned tt, s') -> redis_get k s' = (Returned None, s')) ->
    forall (owner repo owner' repo' html : string) (s s' : S),
      Js.toLowerCase owner = Js.toLowerCase owner' ->
      Js.toLowerCase repo = Js.toLowerCase repo' ->
      setCachedReadmeHtml owner repo html s = (Returned tt, s') ->
      getCachedReadmeHtml owner' repo' s' = (Returned (Some html), s')
      /\ (forall s'',
            deleteCachedReadmeHtml owner' repo' s' = (Returned tt, s'') ->
            getCachedReadmeHtml owner repo s'' = (Returned None, s''))
      /\ (forall other otherRepo,
            noSlash owner = true -> noSlash other = true ->
            Js.toLowerCase other <> Js.toLowerCase owner
            \/ Js.toLowerCase otherRepo <> Js.toLowerCase repo ->
            fst (getCachedReadmeHtml other otherRepo s')
            = fst (getCachedReadmeHtml other otherRepo s)).
Proof.
  intros S client Hgetset Hother Hdel owner repo owner' repo' html s s' Ho Hr Hset.
  unfold getCachedReadmeHtml, setCachedReadmeHtml, deleteCachedReadmeHtml in *.
  assert (Hkey : readmeKey owner' repo' = readmeKey owner repo).
  { unfold readmeKey. rewrite Ho, Hr. reflexivity. }
  rewrite Hkey. repeat split.
  - apply (Hgetset _ _ (60 * 60) s); [lia|exact Hset].
  - intros s'' Hd. apply (Hdel _ s'), Hd.
  - intros other otherRepo Hn Hn' Hdiff.
    apply (Hother (readmeKey owner repo) _ html (60 * 60) s); [|exact Hset].
    intros E. apply readmeKey_inj in E as [E1 E2]; [|assumption|assumption].
    destruct Hdiff as [Hd|Hd]; apply Hd; congruence.
Qed.

(** Stored for "Acme/Hub", read for "acme/hub". *)
Lemma readme_cache_round_trip_witness :
  getCachedReadmeHtml "acme" "hub" (<[readmeKey "Acme" "Hub" := "<h1>Hub</h1>"]> ∅)
  = (Returned (Some "<h1>Hub</h1>"), <[readmeKey "Acme" "Hub" := "<h1>Hub</h1>"]> ∅).
Proof.
  refine (proj1 (readme_cache_round_trip (gmap string string) memory _ _ _
                   "Acme" "Hub" "acme" "hub" "<h1>Hub</h1>" ∅ _ eq_refl eq_refl eq_refl)).
  - intros k v ex s s' _ E. inversion E; subst. cbn. rewrite lookup_insert_eq. reflexivity.
  - intros k k' v ex s s' Hk E. inversion E; subst. cbn.
    rewrite lookup_insert_ne by assumption. reflexivity.
  - intros k s s' E. inversion E; subst. cbn. rewrite lookup_delete_eq. reflexivity.
Defined.
